(** * pixelcanvas: the frame pacer and presenter of [pixelcanvas.go]

    A shallow embedding of package [pixelcanvas]: the [Canvasp] struct, its
    methods, the [renderFrame] callback built by [initFrameUpdate], and as
    much of the JavaScript host (object heap, animation-frame registry) and
    of the Go runtime (goroutines, the [done] channel) as the methods touch.
    Go's [float64] is the kernel's binary64 [float]. *)

From Stdlib Require Import ZArith Lia Floats.
From stdpp Require Import base list.

Local Open Scope nat_scope.

(** ** JavaScript values and objects *)

(** A [js.Value]: the zero value is [undefined]; numbers are the request
    ids handed out by [requestAnimationFrame]; everything else the package
    holds is a reference to an object of the host's heap. *)
Inductive jsValue :=
| jsUndefined
| jsNumber (n : Z)
| jsRef (addr : nat).

Definition Pixels := list Byte.byte.

Inductive jsObject :=
| JsOpaque                          (* window, document, body *)
| JsCanvasElement
| JsContext2D (canvas : nat)
| JsImageData (data : list Byte.byte)
| JsUint8Array (data : list Byte.byte).

(** The host calls and render-step calls a run leaves behind, oldest first. *)
Inductive Event :=
| EvNewUint8Array (addr : nat) (len : nat)
| EvRender (fn : nat) (call : nat)
| EvPutImageData (ctx : nat) (data : list Byte.byte) (dx dy : Z)
| EvRequestAnimationFrame (fn : nat) (id : Z)
| EvCancelAnimationFrame (v : jsValue)
| EvConsoleError.

(** ** Go side *)

(** The value of a [chan struct{}] variable. The package holds the channel
    in [c.done] only and never copies it, so the channel's state is kept
    with the variable: [NilChan] is the zero value (no [make] was run). *)
Inductive chan := NilChan | OpenChan | ClosedChan.

Record Canvasp := mkCanvasp {
  done : chan;
  window : jsValue;
  doc : jsValue;
  body : jsValue;
  canvas : jsValue;
  ctx : jsValue;
  imgData : jsValue;
  width : Z;
  height : Z;
  image : option Pixels;       (* *pixelgl.Canvas: [None] is the nil pointer *)
  reqID : jsValue;
  timeStep : float;
  copybuff : jsValue
}.

(** [var c Canvasp] *)
Definition zeroCanvasp : Canvasp :=
  mkCanvasp NilChan jsUndefined jsUndefined jsUndefined jsUndefined
            jsUndefined jsUndefined 0 0 None jsUndefined 0%float jsUndefined.

(** [type RenderFunc func(gc *pixelgl.Canvas) bool]. A Go function value may
    be a closure over state of its own: the embedding passes the number of
    earlier calls, and the pixels it returns are what it drew. *)
Definition RenderFunc := nat -> Pixels -> Pixels * bool.

(** The [js.Func] made by [js.FuncOf] in [initFrameUpdate], with the
    variables it captures: [rf] ([None] is nil) and [lastTimestamp]. *)
Record FrameFunc := mkFrameFunc {
  rf : option RenderFunc;
  lastTimestamp : float;
  calls : nat;
  released : bool
}.

(** The goroutine started by [initFrameUpdate]. *)
Inductive Goroutine :=
| GoReady (r : option RenderFunc)     (* [go func() {...}()] issued, body not run yet *)
| GoParked (fn : nat)                 (* in [<-c.done]; [renderFrame] is func [fn] *)
| GoExited.

Record World := mkWorld {
  cv : Canvasp;
  goroutines : list Goroutine;
  funcs : list FrameFunc;
  jsheap : list jsObject;
  innerWidth : Z;
  innerHeight : Z;
  rafCounter : Z;                     (* last animation-frame request id handed out *)
  rafPending : list (Z * nat);        (* pending requests: id and callback *)
  trace : list Event
}.

(** Field updates. *)
Definition set_cv (f : Canvasp -> Canvasp) (w : World) : World :=
  mkWorld (f (cv w)) (goroutines w) (funcs w) (jsheap w) (innerWidth w)
          (innerHeight w) (rafCounter w) (rafPending w) (trace w).
Definition set_goroutines (g : list Goroutine) (w : World) : World :=
  mkWorld (cv w) g (funcs w) (jsheap w) (innerWidth w)
          (innerHeight w) (rafCounter w) (rafPending w) (trace w).
Definition set_funcs (fs : list FrameFunc) (w : World) : World :=
  mkWorld (cv w) (goroutines w) fs (jsheap w) (innerWidth w)
          (innerHeight w) (rafCounter w) (rafPending w) (trace w).
Definition set_jsheap (h : list jsObject) (w : World) : World :=
  mkWorld (cv w) (goroutines w) (funcs w) h (innerWidth w)
          (innerHeight w) (rafCounter w) (rafPending w) (trace w).
Definition set_raf (n : Z) (p : list (Z * nat)) (w : World) : World :=
  mkWorld (cv w) (goroutines w) (funcs w) (jsheap w) (innerWidth w)
          (innerHeight w) n p (trace w).
Definition set_trace (t : list Event) (w : World) : World :=
  mkWorld (cv w) (goroutines w) (funcs w) (jsheap w) (innerWidth w)
          (innerHeight w) (rafCounter w) (rafPending w) t.

Definition with_canvas (v : jsValue) (c : Canvasp) : Canvasp :=
  mkCanvasp (done c) (window c) (doc c) (body c) v (ctx c) (imgData c)
            (width c) (height c) (image c) (reqID c) (timeStep c) (copybuff c).
Definition with_ctx (v : jsValue) (c : Canvasp) : Canvasp :=
  mkCanvasp (done c) (window c) (doc c) (body c) (canvas c) v (imgData c)
            (width c) (height c) (image c) (reqID c) (timeStep c) (copybuff c).
Definition with_imgData (v : jsValue) (c : Canvasp) : Canvasp :=
  mkCanvasp (done c) (window c) (doc c) (body c) (canvas c) (ctx c) v
            (width c) (height c) (image c) (reqID c) (timeStep c) (copybuff c).
Definition with_width (n : Z) (c : Canvasp) : Canvasp :=
  mkCanvasp (done c) (window c) (doc c) (body c) (canvas c) (ctx c) (imgData c)
            n (height c) (image c) (reqID c) (timeStep c) (copybuff c).
Definition with_height (n : Z) (c : Canvasp) : Canvasp :=
  mkCanvasp (done c) (window c) (doc c) (body c) (canvas c) (ctx c) (imgData c)
            (width c) n (image c) (reqID c) (timeStep c) (copybuff c).
Definition with_image (p : option Pixels) (c : Canvasp) : Canvasp :=
  mkCanvasp (done c) (window c) (doc c) (body c) (canvas c) (ctx c) (imgData c)
            (width c) (height c) p (reqID c) (timeStep c) (copybuff c).
Definition with_reqID (v : jsValue) (c : Canvasp) : Canvasp :=
  mkCanvasp (done c) (window c) (doc c) (body c) (canvas c) (ctx c) (imgData c)
            (width c) (height c) (image c) v (timeStep c) (copybuff c).
Definition with_timeStep (x : float) (c : Canvasp) : Canvasp :=
  mkCanvasp (done c) (window c) (doc c) (body c) (canvas c) (ctx c) (imgData c)
            (width c) (height c) (image c) (reqID c) x (copybuff c).
Definition with_copybuff (v : jsValue) (c : Canvasp) : Canvasp :=
  mkCanvasp (done c) (window c) (doc c) (body c) (canvas c) (ctx c) (imgData c)
            (width c) (height c) (image c) (reqID c) (timeStep c) v.
Definition with_done (d : chan) (c : Canvasp) : Canvasp :=
  mkCanvasp d (window c) (doc c) (body c) (canvas c) (ctx c) (imgData c)
            (width c) (height c) (image c) (reqID c) (timeStep c) (copybuff c).

Definition with_lastTimestamp (t : float) (f : FrameFunc) : FrameFunc :=
  mkFrameFunc (rf f) t (calls f) (released f).
Definition with_calls (n : nat) (f : FrameFunc) : FrameFunc :=
  mkFrameFunc (rf f) (lastTimestamp f) n (released f).
Definition with_released (b : bool) (f : FrameFunc) : FrameFunc :=
  mkFrameFunc (rf f) (lastTimestamp f) (calls f) b.

(** ** Outcomes of a call

    A call returns, panics (the Go program dies), or parks its goroutine
    with nothing left in the call to wake it. *)
Inductive Outcome (A : Type) :=
| Returns (a : A) (w : World)
| Panics (w : World)
| Blocks (w : World).
Arguments Returns {A} a w.
Arguments Panics {A} w.
Arguments Blocks {A} w.

Definition M (A : Type) := World -> Outcome A.

Definition ret {A} (a : A) : M A := fun w => Returns a w.
Definition bind {A B} (m : M A) (k : A -> M B) : M B :=
  fun w => match m w with
           | Returns a w' => k a w'
           | Panics w' => Panics w'
           | Blocks w' => Blocks w'
           end.

Declare Scope go_scope.
Delimit Scope go_scope with go.
Notation "x <- m ;; k" := (bind m (fun x => k))
  (at level 100, m at next level, right associativity) : go_scope.
Notation "m ;; k" := (bind m (fun _ => k))
  (at level 100, right associativity) : go_scope.
Local Open Scope go_scope.

Definition gets {A} (f : World -> A) : M A := fun w => Returns (f w) w.
Definition modify (f : World -> World) : M unit := fun w => Returns tt (f w).
Definition panic {A} : M A := fun w => Panics w.
Definition emit (e : Event) : M unit :=
  modify (fun w => set_trace (trace w ++ [e]) w).
Definition block {A} : M A := fun w => Blocks w.

Fixpoint forM_ {A} (l : list A) (f : A -> M unit) : M unit :=
  match l with
  | [] => ret tt
  | x :: r => f x ;; forM_ r f
  end.

(** ** The JavaScript host *)

(** A property read or method call on [v]: [syscall/js] panics unless [v]
    refers to an object. *)
Definition js_object (v : jsValue) : M jsObject := fun w =>
  match v with
  | jsRef a => match jsheap w !! a with
               | Some o => Returns o w
               | None => Panics w
               end
  | _ => Panics w
  end.

Definition addr_of (v : jsValue) : nat :=
  match v with jsRef a => a | _ => 0 end.

Definition js_alloc (o : jsObject) : M jsValue := fun w =>
  Returns (jsRef (length (jsheap w))) (set_jsheap (jsheap w ++ [o]) w).

Definition js_store (a : nat) (o : jsObject) : M unit :=
  modify (fun w => set_jsheap (<[a := o]> (jsheap w)) w).

(** [js.Global()]: the window object, with [document] and [document.body]
    behind it, at the first three addresses of the heap. *)
Definition jsGlobal : jsValue := jsRef 0.
Definition jsDocument : jsValue := jsRef 1.
Definition jsBody : jsValue := jsRef 2.

(** [canvas.getContext("2d")] *)
Definition getContext2d (cnv : jsValue) : M jsValue :=
  o <- js_object cnv ;;
  match o with
  | JsCanvasElement => js_alloc (JsContext2D (addr_of cnv))
  | _ => panic
  end.

(** [ctx.createImageData(sw, sh)]: an IndexSizeError when a dimension is
    zero, else |sw| x |sh| transparent black pixels. *)
Definition createImageData (cx : jsValue) (sw sh : Z) : M jsValue :=
  o <- js_object cx ;;
  match o with
  | JsContext2D _ =>
      if ((sw =? 0) || (sh =? 0))%Z then panic
      else js_alloc (JsImageData
                       (replicate (Z.to_nat (Z.abs sw * Z.abs sh * 4)) Byte.x00))
  | _ => panic
  end.

(** [new Uint8Array(n)] *)
Definition newUint8Array (n : nat) : M jsValue :=
  v <- js_alloc (JsUint8Array (replicate n Byte.x00)) ;;
  emit (EvNewUint8Array (addr_of v) n) ;;
  ret v.

(** [requestAnimationFrame(f)]: the next request id, and [f] pending under it. *)
Definition requestAnimationFrame (fn : nat) : M jsValue := fun w =>
  let id := (rafCounter w + 1)%Z in
  Returns (jsNumber id)
          (set_trace (trace w ++ [EvRequestAnimationFrame fn id])
                     (set_raf id (rafPending w ++ [(id, fn)]) w)).

(** The handle [cancelAnimationFrame] sees: a value that is not a number
    converts to 0, which is no request's id. *)
Definition handle_of (v : jsValue) : Z :=
  match v with jsNumber n => n | _ => 0%Z end.

Definition cancelAnimationFrame (v : jsValue) : M unit :=
  modify (fun w =>
            set_raf (rafCounter w)
                    (List.filter (fun p => negb (fst p =? handle_of v)%Z)
                                 (rafPending w)) w) ;;
  emit (EvCancelAnimationFrame v).

(** [js.CopyBytesToJS(dst, src)]: panics unless [dst] is a Uint8Array;
    copies as many bytes as fit and returns their number. *)
Definition CopyBytesToJS (dst : jsValue) (src : list Byte.byte) : M nat :=
  o <- js_object dst ;;
  match o with
  | JsUint8Array d =>
      let n := Nat.min (length d) (length src) in
      js_store (addr_of dst) (JsUint8Array (take n src ++ drop n d)) ;;
      ret n
  | _ => panic
  end.

(** [imgData.data.set(src)]: a RangeError when [src] is longer than the data. *)
Definition imageData_set (img src : jsValue) : M unit :=
  io <- js_object img ;;
  so <- js_object src ;;
  match io, so with
  | JsImageData d, JsUint8Array s =>
      if length d <? length s then panic
      else js_store (addr_of img) (JsImageData (s ++ drop (length s) d))
  | _, _ => panic
  end.

(** [ctx.putImageData(img, dx, dy)]: the host paints the whole image data
    at [(dx, dy)]; no dirty rectangle is passed. *)
Definition putImageData (cx img : jsValue) (dx dy : Z) : M unit :=
  xo <- js_object cx ;;
  io <- js_object img ;;
  match xo, io with
  | JsContext2D _, JsImageData d => emit (EvPutImageData (addr_of cx) d dx dy)
  | _, _ => panic
  end.

(** Modelled from the spec: [pixelgl.NewCanvas(pixel.R(0, 0, w, h))] is
    the rasterizer library's, not this package's. Its [Pixels()] is the Frame
    Buffer of the spec, "sequence of RGBA bytes, length = width x height x 4",
    here all zero when fresh. *)
Definition NewCanvas (w h : Z) : Pixels :=
  replicate (Z.to_nat (w * h * 4)) Byte.x00.

(** ** The methods of [Canvasp]

    One [Canvasp] lives in the world, at [cv]; a method of [*Canvasp] is a
    computation on the world. *)

(** [func (c *Canvasp) Set(canvas js.Value, width int, height int)] *)
Definition Set' (canvas0 : jsValue) (width0 height0 : Z) : M unit :=
  modify (set_cv (with_canvas canvas0)) ;;
  modify (set_cv (with_height height0)) ;;
  modify (set_cv (with_width width0)) ;;
  cx <- getContext2d canvas0 ;;
  modify (set_cv (with_ctx cx)) ;;
  img <- createImageData cx width0 height0 ;;
  modify (set_cv (with_imgData img)) ;;
  modify (set_cv (with_image (Some (NewCanvas width0 height0)))) ;;
  buf <- newUint8Array (length (NewCanvas width0 height0)) ;;
  modify (set_cv (with_copybuff buf)).

(** [func (c *Canvasp) Create(width int, height int)]: [createElement] on
    [c.doc], the two [canvas.Set] (the element's own size is the host's
    business and is not kept here), [appendChild] on [c.body], then [Set]. *)
Definition Create (width0 height0 : Z) : M unit :=
  c <- gets cv ;;
  js_object (doc c) ;;
  cnv <- js_alloc JsCanvasElement ;;
  js_object (body c) ;;
  Set' cnv width0 height0.

(** [func NewCanvasp(create bool)]: the new [Canvasp] is the world's; the
    error returned with it is always nil. *)
Definition NewCanvasp (create : bool) : M unit :=
  modify (set_cv (fun _ =>
    mkCanvasp NilChan jsGlobal jsDocument jsBody jsUndefined jsUndefined
              jsUndefined 0 0 None jsUndefined 0%float jsUndefined)) ;;
  if create then
    iw <- gets innerWidth ;;
    ih <- gets innerHeight ;;
    Create iw ih
  else ret tt.

(** [func (c *Canvasp) SetFPS(maxFPS float64)] *)
Definition SetFPS (maxFPS : float) : M unit :=
  modify (set_cv (with_timeStep (1000 / maxFPS)%float)).

(** [func (c *Canvasp) Height() int] and [Width() int] *)
Definition Height : M Z := gets (fun w => height (cv w)).
Definition Width : M Z := gets (fun w => width (cv w)).

(** [func (c *Canvasp) imgCopy()] *)
Definition imgCopy : M unit :=
  c <- gets cv ;;
  match image c with
  | None => panic                             (* c.image.Pixels() on nil *)
  | Some px =>
      CopyBytesToJS (copybuff c) px ;;
      imageData_set (imgData c) (copybuff c) ;;
      putImageData (ctx c) (imgData c) 0 0
  end.

(** The call [rf(c.image)] made by func [fn]: the render step draws on the
    shadow frame and says whether it changed. *)
Definition call_rf (fn : nat) (r : RenderFunc) : M bool := fun w =>
  let n := from_option calls 0 (funcs w !! fn) in
  let '(px, changed) := r n (default [] (image (cv w))) in
  Returns changed
    (set_trace (trace w ++ [EvRender fn n])
       (set_funcs (alter (with_calls (S n)) fn (funcs w))
          (set_cv (with_image (fmap (fun _ => px) (image (cv w)))) w))).

(** The function literal passed to [js.FuncOf] in [initFrameUpdate],
    called by the host with [args[0]] the refresh timestamp. A released
    [js.Func] only logs "call to released function". *)
Definition renderFrame (fn : nat) (timestamp : float) : M unit :=
  fs <- gets funcs ;;
  match fs !! fn with
  | None => ret tt
  | Some f =>
      if released f then emit EvConsoleError
      else
        c <- gets cv ;;
        (if (timeStep c <=? timestamp - lastTimestamp f)%float then
           match rf f with
           | Some r =>
               changed <- call_rf fn r ;;
               if changed then imgCopy else ret tt
           | None => imgCopy
           end ;;
           modify (fun w =>
                     set_funcs (alter (with_lastTimestamp timestamp) fn (funcs w)) w)
         else ret tt) ;;
        id <- requestAnimationFrame fn ;;
        modify (set_cv (with_reqID id))
  end.

(** [renderFrame.Release()] *)
Definition release (fn : nat) : M unit :=
  modify (fun w => set_funcs (alter (with_released true) fn (funcs w)) w).

Definition set_goroutine (g : nat) (s : Goroutine) : M unit :=
  modify (fun w => set_goroutines (<[g := s]> (goroutines w)) w).

(** The goroutine of [initFrameUpdate], run up to where it parks:
    [js.FuncOf], the first [requestAnimationFrame] (its result is dropped),
    then [<-c.done]. A receive from a nil or an open channel parks; from a
    closed channel it returns at once, and the deferred [Release] runs. *)
Definition goroutine_body (g : nat) (r : option RenderFunc) : M unit :=
  fn <- gets (fun w => length (funcs w)) ;;
  modify (fun w => set_funcs (funcs w ++ [mkFrameFunc r 0%float 0 false]) w) ;;
  requestAnimationFrame fn ;;
  d <- gets (fun w => done (cv w)) ;;
  match d with
  | ClosedChan => release fn ;; set_goroutine g GoExited
  | _ => set_goroutine g (GoParked fn)
  end.

(** The Go scheduler: every goroutine that can run does, in order, until
    it parks. The host calls back only when none is left to run. *)
Definition run_goroutine (g : nat) : M unit :=
  gs <- gets goroutines ;;
  match gs !! g with
  | Some (GoReady r) => goroutine_body g r
  | _ => ret tt
  end.

Definition schedule : M unit :=
  gs <- gets goroutines ;;
  forM_ (seq 0 (length gs)) run_goroutine.

(** [func (c *Canvasp) initFrameUpdate(rf RenderFunc)] *)
Definition initFrameUpdate (r : option RenderFunc) : M unit :=
  modify (fun w => set_goroutines (goroutines w ++ [GoReady r]) w).

(** [func (c *Canvasp) Start(maxFPS float64, rf RenderFunc)] *)
Definition Start (maxFPS : float) (r : option RenderFunc) : M unit :=
  SetFPS maxFPS ;;
  initFrameUpdate r.

(** A parked receiver is handed the value (or sees the close): it leaves
    [<-c.done], its deferred [Release] runs and the goroutine ends. *)
Definition wake (g : nat) : M unit :=
  gs <- gets goroutines ;;
  match gs !! g with
  | Some (GoParked fn) => release fn ;; set_goroutine g GoExited
  | _ => ret tt
  end.

Definition is_parked (s : Goroutine) : bool :=
  match s with GoParked _ => true | _ => false end.

Fixpoint first_parked (gs : list Goroutine) (g : nat) : option nat :=
  match gs with
  | [] => None
  | s :: r => if is_parked s then Some g else first_parked r (S g)
  end.

(** [c.done <- struct{}{}]: on a nil channel the sender parks for ever, on
    a closed one it panics; on an open, unbuffered one it parks until a
    receiver is there, so the runnable goroutines get to their receive. *)
Definition chan_send : M unit :=
  d <- gets (fun w => done (cv w)) ;;
  match d with
  | NilChan => block
  | ClosedChan => panic
  | OpenChan =>
      schedule ;;
      gs <- gets goroutines ;;
      match first_parked gs 0 with
      | Some g => wake g
      | None => block
      end
  end.

(** [close(c.done)]: panics on a nil or a closed channel; every receiver
    parked on the channel is released. *)
Definition chan_close : M unit :=
  d <- gets (fun w => done (cv w)) ;;
  match d with
  | OpenChan =>
      modify (set_cv (with_done ClosedChan)) ;;
      gs <- gets goroutines ;;
      forM_ (seq 0 (length gs)) wake
  | _ => panic
  end.

(** [func (c *Canvasp) Stop()] *)
Definition Stop : M unit :=
  c <- gets cv ;;
  js_object (window c) ;;
  cancelAnimationFrame (reqID c) ;;
  chan_send ;;
  chan_close.

(** ** The host's refresh

    Before a repaint the host takes the pending requests, empties the list
    and calls each callback with the frame's timestamp. *)
Definition refresh (timestamp : float) : M unit :=
  schedule ;;
  ps <- gets rafPending ;;
  modify (fun w => set_raf (rafCounter w) [] w) ;;
  forM_ ps (fun p => renderFrame (snd p) timestamp).

(** A page before the program starts. *)
Definition boot (iw ih : Z) : World :=
  mkWorld zeroCanvasp [] [] [JsOpaque; JsOpaque; JsOpaque] iw ih 0 [] [].

(** The world a computation leaves, whatever its outcome. *)
Definition world_of {A} (o : Outcome A) : World :=
  match o with Returns _ w | Panics w | Blocks w => w end.

Definition run {A} (m : M A) (w : World) : World := world_of (m w).

(** ** What a run shows *)

Definition is_render (e : Event) : bool :=
  match e with EvRender _ _ => true | _ => false end.
Definition is_copy (e : Event) : bool :=
  match e with EvPutImageData _ _ _ _ => true | _ => false end.
Definition is_rearm (e : Event) : bool :=
  match e with EvRequestAnimationFrame _ _ => true | _ => false end.
Definition is_alloc (e : Event) : bool :=
  match e with EvNewUint8Array _ _ => true | _ => false end.

Definition count (p : Event -> bool) (tr : list Event) : nat :=
  length (List.filter p tr).

Definition renders (w : World) : nat := count is_render (trace w).
Definition copies (w : World) : nat := count is_copy (trace w).
Definition rearms (w : World) : nat := count is_rearm (trace w).
Definition allocs (w : World) : nat := count is_alloc (trace w).

(** Between [w] and [w'] the render step ran or a frame was copied. *)
Definition acted (w w' : World) : Prop :=
  renders w < renders w' \/ copies w < copies w'.

(** Neither happened. *)
Definition idle (w w' : World) : Prop :=
  renders w' = renders w /\ copies w' = copies w.

(** The refresh timestamps, out of [ts] fired in order, at which a frame
    was copied; a run that dies or parks shows nothing further. *)
Fixpoint copy_times (ts : list float) (w : World) : list float :=
  match ts with
  | [] => []
  | t :: r =>
      match refresh t w with
      | Returns _ w' =>
          (if copies w <? copies w' then [t] else []) ++ copy_times r w'
      | _ => []
      end
  end.

(** The FPS gate of [renderFrame] and what the render step answers, read
    off a callback's captured variables. *)
Definition gate (w : World) (f : FrameFunc) (timestamp : float) : bool :=
  (timeStep (cv w) <=? timestamp - lastTimestamp f)%float.

Definition changed (w : World) (f : FrameFunc) : bool :=
  match rf f with
  | Some r => snd (r (calls f) (default [] (image (cv w))))
  | None => true
  end.

(** The surface [Set] builds: a shadow frame, the transfer buffer at [a],
    the image data at [i], both of [n] bytes, and the 2D context at [x]. *)
Record surface (a i x n : nat) (w : World) : Prop := mkSurface {
  sf_image : is_Some (image (cv w));
  sf_copybuff : copybuff (cv w) = jsRef a;
  sf_buffer : exists d, jsheap w !! a = Some (JsUint8Array d) /\ length d = n;
  sf_imgData : imgData (cv w) = jsRef i;
  sf_data : exists e, jsheap w !! i = Some (JsImageData e) /\ length e = n;
  sf_ctx : ctx (cv w) = jsRef x;
  sf_context : exists cnv, jsheap w !! x = Some (JsContext2D cnv)
}.

(** What [CopyBytesToJS] leaves in a buffer [d] given [src]. *)
Definition copied (src d : list Byte.byte) : list Byte.byte :=
  take (Nat.min (length d) (length src)) src
    ++ drop (Nat.min (length d) (length src)) d.

Definition is_ready (s : Goroutine) : bool :=
  match s with GoReady _ => true | _ => false end.

(** No goroutine is waiting to run. *)
Definition settled (w : World) : Prop :=
  Forall (fun s => is_ready s = false) (goroutines w).

(** A computation keeps [P], whatever its outcome. *)
Definition preserves (P : World -> Prop) {A} (m : M A) : Prop :=
  forall w, P w -> P (world_of (m w)).

Definition done_nil (w : World) : Prop := done (cv w) = NilChan.

(** ** Scenarios *)

Definition always_true : RenderFunc := fun _ px => (px, true).

(** A page of [iw] x [ih] pixels on which the program has run
    [NewCanvasp(true)] and [Start(maxFPS, r)]. *)
Definition started (iw ih : Z) (maxFPS : float) (r : option RenderFunc) : World :=
  run (Start maxFPS r) (run (NewCanvasp true) (boot iw ih)).

(** What one call of [renderFrame fn] at [timestamp] makes of [w], when
    [f] is what the callback had captured: the effects, counted. *)
Record ticked (fn : nat) (timestamp : float) (f : FrameFunc) (w w' : World)
  : Prop := mkTicked {
  tk_func : exists f', funcs w' !! fn = Some f' /\ rf f' = rf f
              /\ released f' = false
              /\ lastTimestamp f' =
                   if gate w f timestamp then timestamp else lastTimestamp f;
  tk_others : forall k, k <> fn -> funcs w' !! k = funcs w !! k;
  tk_renders : renders w' =
                 renders w + (if gate w f timestamp && bool_decide (is_Some (rf f))
                              then 1 else 0);
  tk_copies : copies w' =
                copies w + (if gate w f timestamp && changed w f then 1 else 0);
  tk_rearms : rearms w' = S (rearms w);
  tk_allocs : allocs w' = allocs w;
  tk_pending : rafPending w' = rafPending w ++ [((rafCounter w + 1)%Z, fn)];
  tk_counter : rafCounter w' = (rafCounter w + 1)%Z;
  tk_reqID : reqID (cv w') = jsNumber (rafCounter w + 1);
  tk_timeStep : timeStep (cv w') = timeStep (cv w);
  tk_done : done (cv w') = done (cv w);
  tk_window : window (cv w') = window (cv w);
  tk_goroutines : goroutines w' = goroutines w;
  tk_heap : length (jsheap w') = length (jsheap w)
}.

Definition is_closed (d : chan) : bool :=
  match d with ClosedChan => true | _ => false end.

(** The page of the scenarios, one pixel wide and high, with its canvas
    made by [NewCanvasp(true)]; and the same page after [Start(60, nil)]
    and one refresh at 17 ms. *)
Definition page : World := run (NewCanvasp true) (boot 1 1).

Definition running : World := run (refresh 17) (started 1 1 60 None).

Definition never_changed : RenderFunc := fun _ px => (px, false).

(** A page whose render step never reports a change, its first callback
    registered and not yet called. *)
Definition waiting : World := run schedule (started 1 1 60 (Some never_changed)).

(** ** Runs of the program

    What the caller and the host can do to a [Canvasp] once [NewCanvasp]
    has made it. A run goes on from the world each call leaves, also when
    the call parked: the host still fires callbacks then. *)
Inductive Op :=
| OpSetFPS (maxFPS : float)
| OpStart (maxFPS : float) (r : option RenderFunc)
| OpSet (cnv : jsValue) (width0 height0 : Z)
| OpCreate (width0 height0 : Z)
| OpRefresh (timestamp : float)
| OpCallback (fn : nat) (timestamp : float)
| OpStop.

Definition step (o : Op) : M unit :=
  match o with
  | OpSetFPS maxFPS => SetFPS maxFPS
  | OpStart maxFPS r => Start maxFPS r
  | OpSet cnv width0 height0 => Set' cnv width0 height0
  | OpCreate width0 height0 => Create width0 height0
  | OpRefresh timestamp => refresh timestamp
  | OpCallback fn timestamp => renderFrame fn timestamp
  | OpStop => Stop
  end.

Definition exec (ops : list Op) (w : World) : World :=
  fold_left (fun v o => run (step o) v) ops w.

(** An op that leaves the surface alone: anything but [Set] and [Create]. *)
Definition keeps_surface (o : Op) : bool :=
  match o with
  | OpSet _ _ _ | OpCreate _ _ => false
  | _ => true
  end.

(** What [Width()] and [Height()] answer. *)
Definition dims (w : World) : Z * Z := (width (cv w), height (cv w)).

(** The handles [Set] stores for the surface. *)
Definition handles (w : World) : jsValue * jsValue * jsValue * jsValue :=
  (canvas (cv w), ctx (cv w), imgData (cv w), copybuff (cv w)).

(** What only [NewCanvasp], [Create] and [Set] assign. *)
Definition setup (w : World) :=
  (dims w, handles w, window (cv w), doc (cv w), body (cv w)).

(** Nothing [Start] made has gone: [c.done] is nil, no [js.Func] has been
    released and no goroutine has ended. *)
Definition all_live (w : World) : Prop :=
  done (cv w) = NilChan
  /\ Forall (fun f => released f = false) (funcs w)
  /\ Forall (fun s => s <> GoExited) (goroutines w).

(** * Proofs *)

Lemma float_sub_zero (x : float) : (x - 0)%float = x.
Proof.
  apply Prim2SF_inj. rewrite sub_spec.
  change (Prim2SF 0%float) with (S754_zero false).
  destruct (Prim2SF x) as [[]| [] | | ]; reflexivity.
Qed.

Lemma SFcompare_Lt_Gt (x y : spec_float) :
  SFcompare x y = Some Lt -> SFcompare y x = Some Gt.
Proof.
  destruct x as [[]|[]| |[] mx ex], y as [[]|[]| |[] my ey];
    simpl; try congruence;
    change (PosDef.Pos.compare_cont Eq) with Pos.compare;
    rewrite (Z.compare_antisym ex ey), (Pos.compare_antisym mx my);
    destruct (ex ?= ey)%Z, (mx ?= my)%positive; simpl; congruence.
Qed.

Lemma float_ltb_not_leb (x y : float) :
  (x <? y)%float = true -> (y <=? x)%float = false.
Proof.
  rewrite ltb_spec, leb_spec. unfold SFltb, SFleb.
  destruct (SFcompare (Prim2SF x) (Prim2SF y)) as [[]|] eqn:E; try discriminate.
  intros _. now rewrite (SFcompare_Lt_Gt _ _ E).
Qed.

Lemma count_app p l1 l2 : count p (l1 ++ l2) = count p l1 + count p l2.
Proof. unfold count. now rewrite List.filter_app, length_app. Qed.

Lemma copied_length src d : length (copied src d) = length d.
Proof.
  unfold copied. rewrite length_app, length_take, length_drop. lia.
Qed.

Lemma copied_full src d : length src = length d -> copied src d = src.
Proof.
  intros E. unfold copied. rewrite E, Nat.min_id, <- E.
  rewrite firstn_all, drop_ge by lia. apply app_nil_r.
Qed.

Ltac wsimpl :=
  cbn [cv goroutines funcs jsheap innerWidth innerHeight rafCounter rafPending
       trace set_cv set_goroutines set_funcs set_jsheap set_raf set_trace
       done window doc body canvas ctx imgData width height image reqID
       timeStep copybuff with_canvas with_ctx with_imgData with_width
       with_height with_image with_reqID with_timeStep with_copybuff with_done
       rf lastTimestamp calls released with_lastTimestamp with_calls
       with_released world_of addr_of fst snd] in *.

Ltac munfold :=
  unfold emit in *; unfold bind, gets, modify, ret, panic, block in *.

Lemma imgCopy_spec a i x n w px d :
  surface a i x n w ->
  image (cv w) = Some px ->
  jsheap w !! a = Some (JsUint8Array d) ->
  imgCopy w = Returns tt
    (set_trace (trace w ++ [EvPutImageData x (copied px d) 0 0])
       (set_jsheap (<[i := JsImageData (copied px d)]>
                      (<[a := JsUint8Array (copied px d)]> (jsheap w))) w)).
Proof.
  intros [_ Hb [d' [Hd' Hn]] Hi [e [He Hne]] Hx [cnv Hc]] Hpx Hd.
  assert (d' = d) by congruence; subst d'.
  assert (a <> i) by (intros ->; congruence).
  assert (x <> i) by (intros ->; congruence).
  assert (x <> a) by (intros ->; congruence).
  unfold imgCopy, CopyBytesToJS, imageData_set, putImageData, js_store, js_object.
  munfold. rewrite Hpx, Hb, Hi, Hx, Hd. wsimpl.
  fold (copied px d).
  rewrite list_lookup_insert_ne, He by congruence. wsimpl.
  rewrite list_lookup_insert_eq by (eapply lookup_lt_Some; eauto).
  rewrite copied_length, Hn, Hne, Nat.ltb_irrefl. munfold. wsimpl.
  rewrite !list_lookup_insert_ne, Hc by congruence. wsimpl.
  rewrite list_lookup_insert_eq
    by (rewrite length_insert; eapply lookup_lt_Some; eauto).
  rewrite drop_ge by lia.
  rewrite app_nil_r. reflexivity.
Qed.

Lemma surface_ext a i x n w w' :
  surface a i x n w ->
  is_Some (image (cv w')) ->
  copybuff (cv w') = copybuff (cv w) ->
  imgData (cv w') = imgData (cv w) ->
  ctx (cv w') = ctx (cv w) ->
  jsheap w' = jsheap w ->
  surface a i x n w'.
Proof.
  intros [] ? Hb Hi Hx Hh. split; rewrite ?Hb, ?Hi, ?Hx, ?Hh; assumption.
Qed.

Lemma surface_copied a i x n w w' c :
  surface a i x n w ->
  length c = n ->
  is_Some (image (cv w')) ->
  copybuff (cv w') = copybuff (cv w) ->
  imgData (cv w') = imgData (cv w) ->
  ctx (cv w') = ctx (cv w) ->
  jsheap w' = <[i := JsImageData c]> (<[a := JsUint8Array c]> (jsheap w)) ->
  surface a i x n w'.
Proof.
  intros [_ Hb [d [Hd Hn]] Hi [e [He Hne]] Hx [cnv Hc]] Hlen ? Hb' Hi' Hx' Hh.
  assert (a <> i) by (intros ->; congruence).
  assert (x <> i) by (intros ->; congruence).
  assert (x <> a) by (intros ->; congruence).
  split; rewrite ?Hb', ?Hi', ?Hx', ?Hh; try assumption.
  - exists c. split; [|assumption].
    rewrite list_lookup_insert_ne by congruence.
    apply list_lookup_insert_eq. eapply lookup_lt_Some; eauto.
  - exists c. split; [|assumption].
    apply list_lookup_insert_eq. rewrite length_insert.
    eapply lookup_lt_Some; eauto.
  - exists cnv. now rewrite !list_lookup_insert_ne by congruence.
Qed.

Ltac count_solve :=
  unfold renders, copies, rearms, allocs; wsimpl;
  rewrite ?count_app; cbn; lia.

Lemma renderFrame_spec a i x n w fn f timestamp :
  surface a i x n w ->
  funcs w !! fn = Some f ->
  released f = false ->
  exists w', renderFrame fn timestamp w = Returns tt w'
             /\ ticked fn timestamp f w w'
             /\ surface a i x n w'.
Proof.
  intros Hs Hf Hrel.
  destruct (sf_image _ _ _ _ _ Hs) as [px Hpx].
  destruct (sf_buffer _ _ _ _ _ Hs) as [d [Hd Hn]].
  unfold renderFrame. munfold. wsimpl. rewrite Hf, Hrel.
  fold (gate w f timestamp).
  destruct (gate w f timestamp) eqn:G; [destruct (rf f) as [r|] eqn:Hr|].
  - unfold call_rf. rewrite Hf, Hpx. cbn [from_option id fmap option_fmap option_map].
    destruct (r (calls f) px) as [px' b] eqn:Er.
    destruct b.
    + erewrite imgCopy_spec; [| |wsimpl; reflexivity|wsimpl; eassumption].
      2:{ eapply surface_ext; [eassumption|wsimpl..]; eauto. }
      unfold requestAnimationFrame. wsimpl.
      eexists. split; [reflexivity|]. split.
      * split; unfold changed; rewrite ?G, ?Hr, ?Hpx;
          cbn [from_option id]; rewrite ?Er; wsimpl;
          try reflexivity; try count_solve.
        -- rewrite list_lookup_alter_eq, list_lookup_alter_eq, Hf.
           eexists. repeat split; try reflexivity; assumption.
        -- intros k Hk. now rewrite !list_lookup_alter_ne by congruence.
        -- now rewrite !length_insert.
      * apply surface_copied with (w := w) (c := copied px' d);
          [assumption|rewrite copied_length; assumption|wsimpl..]; eauto.
    + unfold requestAnimationFrame. wsimpl.
      eexists. split; [reflexivity|]. split.
      * split; unfold changed; rewrite ?G, ?Hr, ?Hpx;
          cbn [from_option id]; rewrite ?Er; wsimpl;
          try reflexivity; try count_solve.
        -- rewrite list_lookup_alter_eq, list_lookup_alter_eq, Hf.
           eexists. repeat split; try reflexivity; assumption.
        -- intros k Hk. now rewrite !list_lookup_alter_ne by congruence.
      * eapply surface_ext; [eassumption|wsimpl..]; eauto.
  - erewrite imgCopy_spec; [|eassumption..].
    unfold requestAnimationFrame. wsimpl.
    eexists. split; [reflexivity|]. split.
    + split; unfold changed; rewrite ?G, ?Hr; wsimpl;
        try reflexivity; try count_solve.
      * rewrite list_lookup_alter_eq, Hf.
        eexists. repeat split; try reflexivity; assumption.
      * intros k Hk. now rewrite !list_lookup_alter_ne by congruence.
      * now rewrite !length_insert.
    + apply surface_copied with (w := w) (c := copied px d);
        [assumption|rewrite copied_length; assumption|wsimpl..]; eauto.
  - unfold requestAnimationFrame. wsimpl.
    eexists. split; [reflexivity|]. split.
    + split; rewrite ?G; wsimpl; try reflexivity; try count_solve.
      eexists. repeat split; try reflexivity; assumption.
    + eapply surface_ext; [eassumption|wsimpl..]; eauto.
Qed.

(** ** The scheduler and the host's refresh *)

Lemma forM__app {A} (l1 l2 : list A) (f : A -> M unit) w :
  forM_ (l1 ++ l2) f w = (forM_ l1 f ;; forM_ l2 f) w.
Proof.
  revert w. induction l1 as [|y l1 IH]; intros w; cbn.
  - reflexivity.
  - unfold bind in *. destruct (f y w); try reflexivity. apply IH.
Qed.

Lemma forM__skip {A} (l : list A) (f : A -> M unit) w :
  (forall y, y ∈ l -> f y w = Returns tt w) ->
  forM_ l f w = Returns tt w.
Proof.
  induction l as [|y l IH]; intros H; cbn; [reflexivity|].
  unfold bind. rewrite (H y) by constructor.
  apply IH. intros z Hz. apply H. now constructor.
Qed.

Lemma run_goroutine_skip g w :
  (forall s, goroutines w !! g = Some s -> is_ready s = false) ->
  run_goroutine g w = Returns tt w.
Proof.
  intros H. unfold run_goroutine. munfold.
  destruct (goroutines w !! g) as [[]|] eqn:E; try reflexivity.
  now specialize (H _ eq_refl).
Qed.

Lemma schedule_settled w : settled w -> schedule w = Returns tt w.
Proof.
  intros H. unfold schedule. munfold.
  apply forM__skip. intros g _. apply run_goroutine_skip.
  intros s Hs. unfold settled in H. rewrite Forall_lookup in H. eauto.
Qed.

Lemma Start_schedule w maxFPS r :
  settled w ->
  exists w1 w2,
    Start maxFPS r w = Returns tt w1
    /\ schedule w1 = Returns tt w2
    /\ cv w1 = with_timeStep (1000 / maxFPS)%float (cv w)
    /\ cv w2 = cv w1
    /\ funcs w2 = funcs w
                  ++ [mkFrameFunc r 0%float 0 (is_closed (done (cv w)))]
    /\ rafPending w1 = rafPending w
    /\ rafPending w2 = rafPending w ++ [((rafCounter w + 1)%Z, length (funcs w))]
    /\ rafCounter w2 = (rafCounter w + 1)%Z
    /\ trace w1 = trace w
    /\ trace w2 = trace w
                  ++ [EvRequestAnimationFrame (length (funcs w)) (rafCounter w + 1)]
    /\ jsheap w2 = jsheap w
    /\ settled w2.
Proof.
  intros Hs.
  assert (Hsk : forM_ (seq 0 (length (goroutines w))) run_goroutine
                  (set_goroutines (goroutines w ++ [GoReady r])
                     (set_cv (with_timeStep (1000 / maxFPS)%float) w))
                = Returns tt
                    (set_goroutines (goroutines w ++ [GoReady r])
                       (set_cv (with_timeStep (1000 / maxFPS)%float) w))).
  { apply forM__skip. intros g Hg. apply run_goroutine_skip. wsimpl.
    intros s Hs'. apply elem_of_seq in Hg.
    rewrite lookup_app_l in Hs' by lia.
    unfold settled in Hs. rewrite Forall_lookup in Hs. eauto. }
  destruct (done (cv w)) eqn:Hd.
  all: eexists; eexists; split; [reflexivity|].
  all: unfold schedule; munfold; wsimpl.
  all: rewrite length_app, Nat.add_comm; cbn [length Nat.add].
  all: rewrite seq_S, forM__app; unfold bind at 1; rewrite Hsk.
  all: cbn [forM_ Nat.add]; unfold run_goroutine; munfold; wsimpl.
  all: rewrite lookup_app_r, Nat.sub_diag by lia; cbn [lookup list_lookup].
  all: unfold goroutine_body, requestAnimationFrame, release, set_goroutine.
  all: munfold; wsimpl; rewrite Hd.
  all: split; [reflexivity|]; wsimpl.
  all: repeat (split; [reflexivity|]).
  all: rewrite ?insert_app_r_alt, ?alter_app_r_alt, ?Nat.sub_diag by lia.
  all: cbn [insert list_insert alter list_alter].
  all: repeat (split; [reflexivity|]).
  all: unfold settled; wsimpl; apply Forall_app; split; [assumption|].
  all: repeat constructor.
Qed.

Lemma refresh_one w ws id fn timestamp w' :
  schedule w = Returns tt ws ->
  rafPending ws = [(id, fn)] ->
  renderFrame fn timestamp (set_raf (rafCounter ws) [] ws) = Returns tt w' ->
  refresh timestamp w = Returns tt w'.
Proof.
  intros Hs Hp Hr. unfold refresh. unfold bind at 1. rewrite Hs.
  munfold. rewrite Hp. cbn [forM_ snd]. unfold bind, ret. now rewrite Hr.
Qed.

Lemma refresh_none w timestamp :
  settled w ->
  rafPending w = [] ->
  refresh timestamp w = Returns tt (set_raf (rafCounter w) [] w).
Proof.
  intros Hs Hp. unfold refresh. unfold bind at 1.
  rewrite (schedule_settled _ Hs). munfold. now rewrite Hp.
Qed.

Lemma acted_iff_gate fn timestamp f w w' :
  ticked fn timestamp f w w' ->
  acted w w' <-> gate w f timestamp = true.
Proof.
  intros H. unfold acted.
  rewrite (tk_renders _ _ _ _ _ H), (tk_copies _ _ _ _ _ H).
  unfold changed. destruct (gate w f timestamp); cbn.
  - destruct (rf f) as [r|]; cbn; split; intros; auto; lia.
  - split; [lia|discriminate].
Qed.

Lemma idle_of_gate fn timestamp f w w' :
  ticked fn timestamp f w w' ->
  gate w f timestamp = false -> idle w w'.
Proof.
  intros H G. unfold idle.
  rewrite (tk_renders _ _ _ _ _ H), (tk_copies _ _ _ _ _ H), G. cbn. lia.
Qed.

(** C1. A call of the refresh callback with timestamp [T] runs the
    render step or copies a frame exactly when
    [T - lastTimestamp >= c.timeStep]; when [T - lastTimestamp < c.timeStep]
    it does neither; either way it calls [requestAnimationFrame] once,
    which leaves one more request pending, and stores its id. *)
Theorem renderFrame_gates_and_rearms a i x n w fn f T :
  surface a i x n w ->
  funcs w !! fn = Some f ->
  released f = false ->
  exists w',
    renderFrame fn T w = Returns tt w'
    /\ (acted w w' <-> (timeStep (cv w) <=? T - lastTimestamp f)%float = true)
    /\ ((T - lastTimestamp f <? timeStep (cv w))%float = true -> idle w w')
    /\ rearms w' = S (rearms w)
    /\ rafPending w' = rafPending w ++ [((rafCounter w + 1)%Z, fn)]
    /\ reqID (cv w') = jsNumber (rafCounter w + 1).
Proof.
  intros Hs Hf Hrel.
  destruct (renderFrame_spec _ _ _ _ _ _ _ T Hs Hf Hrel) as [w' [Hr [Ht _]]].
  exists w'. split; [assumption|].
  split; [exact (acted_iff_gate _ _ _ _ _ Ht)|].
  split.
  - intros Hlt. apply (idle_of_gate _ _ _ _ _ Ht).
    now apply float_ltb_not_leb.
  - destruct Ht; auto.
Qed.

(** C5. When the gate passes at timestamp [Ti] the callback's
    [lastTimestamp] becomes [Ti], copy or no copy; if the render step
    answers false there is no copy at [Ti], and the gate of the next call,
    at any [T'], still compares [T' - Ti] with the interval. *)
Theorem lastTimestamp_follows_gate a i x n w fn f Ti :
  surface a i x n w ->
  funcs w !! fn = Some f ->
  released f = false ->
  (timeStep (cv w) <=? Ti - lastTimestamp f)%float = true ->
  exists w' f',
    renderFrame fn Ti w = Returns tt w'
    /\ funcs w' !! fn = Some f'
    /\ lastTimestamp f' = Ti
    /\ (changed w f = false ->
        copies w' = copies w
        /\ forall T', exists w'',
             renderFrame fn T' w' = Returns tt w''
             /\ (acted w' w'' <-> (timeStep (cv w) <=? T' - Ti)%float = true)).
Proof.
  intros Hs Hf Hrel G.
  destruct (renderFrame_spec _ _ _ _ _ _ _ Ti Hs Hf Hrel) as [w' [Hr [Ht Hs']]].
  destruct (tk_func _ _ _ _ _ Ht) as [f' [Hf' [_ [Hrel' Hl]]]].
  fold (gate w f Ti) in G. rewrite G in Hl.
  exists w', f'. repeat (split; [assumption|]).
  intros Hc. split.
  - rewrite (tk_copies _ _ _ _ _ Ht), Hc, andb_false_r. lia.
  - intros T'.
    destruct (renderFrame_spec _ _ _ _ _ _ _ T' Hs' Hf' Hrel') as [w'' [Hr' [Ht' _]]].
    exists w''. split; [assumption|].
    rewrite (acted_iff_gate _ _ _ _ _ Ht'). unfold gate.
    now rewrite (tk_timeStep _ _ _ _ _ Ht), Hl.
Qed.

(** C6. After [SetFPS(maxFPS)], and after [Start(maxFPS, rf)], the stored
    interval [c.timeStep] is the float64 quotient [1000 / maxFPS], for every
    [maxFPS]; both calls return. *)
Theorem timeStep_is_1000_over_maxFPS (maxFPS : float) (r : option RenderFunc) w :
  (exists w', SetFPS maxFPS w = Returns tt w'
              /\ timeStep (cv w') = (1000 / maxFPS)%float)
  /\ (exists w', Start maxFPS r w = Returns tt w'
                 /\ timeStep (cv w') = (1000 / maxFPS)%float).
Proof. split; eexists; (split; [reflexivity|]); reflexivity. Qed.

(** C9. [SetFPS(v)] twice leaves the world that [SetFPS(v)] once leaves,
    and nothing but [c.timeStep] differs from the world before. *)
Theorem SetFPS_idempotent (v : float) w :
  exists w',
    SetFPS v w = Returns tt w'
    /\ (SetFPS v ;; SetFPS v) w = Returns tt w'
    /\ cv w' = with_timeStep (1000 / v)%float (cv w)
    /\ goroutines w' = goroutines w
    /\ funcs w' = funcs w
    /\ jsheap w' = jsheap w
    /\ rafCounter w' = rafCounter w
    /\ rafPending w' = rafPending w
    /\ trace w' = trace w.
Proof.
  eexists. split; [reflexivity|].
  repeat (split; [reflexivity|]). reflexivity.
Qed.

Lemma count_snoc p tr e : count p (tr ++ [e]) = count p tr + (if p e then 1 else 0).
Proof. rewrite count_app. unfold count. cbn. now destruct (p e). Qed.

Lemma refresh_tick a i x n w id fn f timestamp :
  settled w ->
  rafPending w = [(id, fn)] ->
  surface a i x n w ->
  funcs w !! fn = Some f ->
  released f = false ->
  exists w' f',
    refresh timestamp w = Returns tt w'
    /\ settled w'
    /\ rafPending w' = [((rafCounter w + 1)%Z, fn)]
    /\ reqID (cv w') = jsNumber (rafCounter w + 1)
    /\ surface a i x n w'
    /\ funcs w' !! fn = Some f'
    /\ released f' = false
    /\ rf f' = rf f
    /\ lastTimestamp f' = (if gate w f timestamp then timestamp else lastTimestamp f)
    /\ timeStep (cv w') = timeStep (cv w)
    /\ done (cv w') = done (cv w)
    /\ window (cv w') = window (cv w)
    /\ length (jsheap w') = length (jsheap w)
    /\ copies w' = copies w + (if gate w f timestamp && changed w f then 1 else 0)
    /\ (acted w w' <-> gate w f timestamp = true)
    /\ (gate w f timestamp = false -> idle w w').
Proof.
  intros Hs Hp Hsf Hf Hrel.
  assert (Hsf' : surface a i x n (set_raf (rafCounter w) [] w))
    by (eapply surface_ext; eauto; apply (sf_image _ _ _ _ _ Hsf)).
  destruct (renderFrame_spec _ _ _ _ _ fn f timestamp Hsf' Hf Hrel)
    as [w' [Hr [Ht Hs']]].
  destruct (tk_func _ _ _ _ _ Ht) as [f' [Hf' [Hrf [Hrel' Hl]]]].
  exists w', f'.
  split; [eapply refresh_one; eauto using schedule_settled|].
  split; [unfold settled; now rewrite (tk_goroutines _ _ _ _ _ Ht)|].
  split; [exact (tk_pending _ _ _ _ _ Ht)|].
  split; [exact (tk_reqID _ _ _ _ _ Ht)|].
  repeat (split; [assumption|]).
  split; [exact (tk_timeStep _ _ _ _ _ Ht)|].
  split; [exact (tk_done _ _ _ _ _ Ht)|].
  split; [exact (tk_window _ _ _ _ _ Ht)|].
  split; [exact (tk_heap _ _ _ _ _ Ht)|].
  split; [exact (tk_copies _ _ _ _ _ Ht)|].
  split; [exact (acted_iff_gate _ _ _ _ _ Ht)|].
  exact (idle_of_gate _ _ _ _ _ Ht).
Qed.

Lemma first_refresh_tick a i x n w maxFPS r timestamp :
  surface a i x n w ->
  settled w ->
  rafPending w = [] ->
  done (cv w) <> ClosedChan ->
  exists w1 w' f',
    let f := mkFrameFunc r 0%float 0 false in
    let fn := length (funcs w) in
    let g := ((1000 / maxFPS)%float <=? timestamp)%float in
    Start maxFPS r w = Returns tt w1
    /\ copies w1 = copies w
    /\ refresh timestamp w1 = Returns tt w'
    /\ settled w'
    /\ rafPending w' = [((rafCounter w + 2)%Z, fn)]
    /\ rafCounter w' = (rafCounter w + 2)%Z
    /\ surface a i x n w'
    /\ funcs w' !! fn = Some f'
    /\ released f' = false
    /\ rf f' = r
    /\ lastTimestamp f' = (if g then timestamp else 0%float)
    /\ timeStep (cv w') = (1000 / maxFPS)%float
    /\ copies w' = copies w + (if g && changed w f then 1 else 0)
    /\ (acted w1 w' <-> g = true)
    /\ (g = false -> idle w1 w').
Proof.
  intros Hsf Hs Hp Hd.
  destruct (Start_schedule w maxFPS r Hs)
    as [w1 [w2 [HS [Hsch [Hcv1 [Hcv2 [Hfs [Hp1 [Hp2 [Hc2 [Ht1 [Ht2 [Hh Hs2]]]]]]]]]]]]].
  assert (Hcl : is_closed (done (cv w)) = false) by (destruct (done (cv w)); easy).
  rewrite Hcl, Hp in *. cbn [app] in Hp2.
  set (f := mkFrameFunc r 0%float 0 false) in *.
  set (ws := set_raf (rafCounter w2) [] w2).
  assert (Hsf' : surface a i x n ws).
  { eapply surface_ext; eauto; unfold ws; wsimpl; rewrite ?Hcv2, ?Hcv1; wsimpl;
      try reflexivity. apply (sf_image _ _ _ _ _ Hsf). }
  assert (Hf : funcs ws !! length (funcs w) = Some f).
  { unfold ws. wsimpl. rewrite Hfs, lookup_app_r, Nat.sub_diag by lia. reflexivity. }
  destruct (renderFrame_spec _ _ _ _ _ _ f timestamp Hsf' Hf eq_refl)
    as [w' [Hr [Ht Hs']]].
  destruct (tk_func _ _ _ _ _ Ht) as [f' [Hf' [Hrf [Hrel' Hl]]]].
  assert (Hg : gate ws f timestamp = ((1000 / maxFPS)%float <=? timestamp)%float).
  { unfold gate, ws. wsimpl. rewrite Hcv2, Hcv1. wsimpl.
    now rewrite float_sub_zero. }
  assert (Hch : changed ws f = changed w f).
  { unfold changed, ws. wsimpl. rewrite Hcv2, Hcv1. reflexivity. }
  assert (Hcw1 : copies w1 = copies w) by (unfold copies; now rewrite Ht1).
  assert (Hcws : copies ws = copies w).
  { unfold copies, ws. wsimpl. rewrite Ht2, count_snoc. cbn. lia. }
  assert (Hrws : renders ws = renders w1).
  { unfold renders, ws. wsimpl. rewrite Ht1, Ht2, count_snoc. cbn. lia. }
  exists w1, w', f'. cbv zeta.
  split; [assumption|]. split; [assumption|].
  split; [eapply refresh_one; eauto|].
  split; [unfold settled; now rewrite (tk_goroutines _ _ _ _ _ Ht)|].
  split; [rewrite (tk_pending _ _ _ _ _ Ht); unfold ws; wsimpl; rewrite Hc2;
          cbn [app]; replace (rafCounter w + 1 + 1)%Z with (rafCounter w + 2)%Z by lia; reflexivity|].
  split; [rewrite (tk_counter _ _ _ _ _ Ht); unfold ws; wsimpl; rewrite Hc2;
          lia|].
  repeat (split; [assumption|]).
  split; [now rewrite Hl, Hg|].
  split; [rewrite (tk_timeStep _ _ _ _ _ Ht); unfold ws; wsimpl;
          now rewrite Hcv2, Hcv1|].
  split; [now rewrite (tk_copies _ _ _ _ _ Ht), Hg, Hch, Hcws|].
  split.
  - rewrite <- Hg, <- (acted_iff_gate _ _ _ _ _ Ht). unfold acted.
    now rewrite Hrws, Hcws, Hcw1.
  - rewrite <- Hg. intros G.
    destruct (idle_of_gate _ _ _ _ _ Ht G) as [Hi1 Hi2].
    split; congruence.
Qed.

(** C10 (as the code has it). The callback [Start] registers captures
    [lastTimestamp = 0], so the first refresh, at [T1], renders or copies
    exactly when [T1 >= c.timeStep], for every [maxFPS]; a first refresh at
    timestamp 0 does neither whenever the interval [1000 / maxFPS] is
    positive. *)
Theorem first_callback_gate a i x n w maxFPS r T1 :
  surface a i x n w ->
  settled w ->
  rafPending w = [] ->
  done (cv w) <> ClosedChan ->
  exists w1 ws w2 f,
    Start maxFPS r w = Returns tt w1
    /\ schedule w1 = Returns tt ws
    /\ funcs ws !! length (funcs w) = Some f
    /\ lastTimestamp f = 0%float
    /\ refresh T1 w1 = Returns tt w2
    /\ (acted w1 w2 <-> ((1000 / maxFPS)%float <=? T1)%float = true)
    /\ ((0 <? 1000 / maxFPS)%float = true -> T1 = 0%float -> idle w1 w2).
Proof.
  intros Hsf Hs Hp Hd.
  destruct (Start_schedule w maxFPS r Hs)
    as [w1 [ws [HS [Hsch [_ [_ [Hfs _]]]]]]].
  destruct (first_refresh_tick _ _ _ _ _ maxFPS r T1 Hsf Hs Hp Hd)
    as [w1' [w2 [f' H]]]. cbv zeta in H.
  destruct H as [HS' [_ [Hr [_ [_ [_ [_ [_ [_ [_ [_ [_ [_ [Ha Hi]]]]]]]]]]]]]].
  assert (w1' = w1) by congruence. subst w1'.
  exists w1, ws, w2. eexists.
  split; [assumption|]. split; [assumption|].
  split; [rewrite Hfs, lookup_app_r, Nat.sub_diag by lia; reflexivity|].
  split; [reflexivity|]. split; [assumption|]. split; [assumption|].
  intros Hpos ->. apply Hi. now apply float_ltb_not_leb.
Qed.

Lemma changed_always_true w f r :
  rf f = Some r -> (forall k px, snd (r k px) = true) -> changed w f = true.
Proof. intros Hr H. unfold changed. rewrite Hr. apply H. Qed.

(** C2 (as the code has it). With [maxFPS = 60], a render step that always
    answers true and refreshes at 0, 8, 17 and 33, a frame is copied at 17
    only: at 33 the gate compares [33 - 17 = 16] with 16.666.... *)
Theorem copy_at_17_only a i x n w r :
  surface a i x n w ->
  settled w ->
  rafPending w = [] ->
  done (cv w) <> ClosedChan ->
  (forall k px, snd (r k px) = true) ->
  copy_times [0; 8; 17; 33]%float (run (Start 60 (Some r)) w) = [17%float].
Proof.
  intros Hsf Hs Hp Hd Hr.
  destruct (first_refresh_tick _ _ _ _ _ 60%float (Some r) 0%float Hsf Hs Hp Hd)
    as [w1 [wa [fa H]]]. cbv zeta in H.
  destruct H as (HS & Hc1 & Hra & Hsa & Hpa & _ & Hsfa & Hfa & Hrela & Hrfa
                & Hla & Hta & Hca & _).
  change ((1000 / 60 <=? 0)%float) with false in Hla, Hca.
  cbn [andb] in Hla, Hca.
  destruct (refresh_tick _ _ _ _ _ _ _ _ 8%float Hsa Hpa Hsfa Hfa Hrela)
    as (wb & fb & Hrb & Hsb & Hpb & _ & Hsfb & Hfb & Hrelb & Hrfb & Hlb & Htb
        & _ & _ & _ & Hcb & _).
  unfold gate in Hlb, Hcb. rewrite Hta, Hla in Hlb, Hcb.
  change ((1000 / 60 <=? 8 - 0)%float) with false in Hlb, Hcb.
  cbn [andb] in Hlb, Hcb. rewrite Hta in Htb.
  destruct (refresh_tick _ _ _ _ _ _ _ _ 17%float Hsb Hpb Hsfb Hfb Hrelb)
    as (wc & fc & Hrc & Hsc & Hpc & _ & Hsfc & Hfc & Hrelc & Hrfc & Hlc & Htc
        & _ & _ & _ & Hcc & _).
  unfold gate in Hlc, Hcc. rewrite Htb, Hlb in Hlc, Hcc.
  change ((1000 / 60 <=? 17 - 0)%float) with true in Hlc, Hcc.
  assert (Hchb : changed wb fb = true).
  { apply (changed_always_true wb fb r); [|assumption].
    rewrite Hrfb. exact Hrfa. }
  rewrite Hchb in Hcc.
  cbn [andb] in Hlc, Hcc. rewrite Htb in Htc.
  destruct (refresh_tick _ _ _ _ _ _ _ _ 33%float Hsc Hpc Hsfc Hfc Hrelc)
    as (wd & fd & Hrd & _ & _ & _ & _ & _ & _ & _ & _ & _ & _ & _ & _ & Hcd & _).
  unfold gate in Hcd. rewrite Htc, Hlc in Hcd.
  change ((1000 / 60 <=? 33 - 17)%float) with false in Hcd.
  cbn [andb] in Hcd.
  unfold run. rewrite HS. cbn [world_of copy_times].
  rewrite Hra, Hrb, Hrc, Hrd.
  replace (copies w1 <? copies wa) with false
    by (symmetry; apply Nat.ltb_ge; lia).
  replace (copies wa <? copies wb) with false
    by (symmetry; apply Nat.ltb_ge; lia).
  replace (copies wb <? copies wc) with true
    by (symmetry; apply Nat.ltb_lt; lia).
  replace (copies wc <? copies wd) with false
    by (symmetry; apply Nat.ltb_ge; lia).
  reflexivity.
Qed.

(** ** Surface setup *)

Lemma NewCanvas_length w h : length (NewCanvas w h) = Z.to_nat (w * h * 4).
Proof. unfold NewCanvas. apply length_replicate. Qed.

Lemma Set'_spec cnv width0 height0 w :
  jsheap w !! cnv = Some JsCanvasElement ->
  (0 < width0)%Z -> (0 < height0)%Z ->
  exists w',
    Set' (jsRef cnv) width0 height0 w = Returns tt w'
    /\ surface (length (jsheap w) + 2) (length (jsheap w) + 1) (length (jsheap w))
               (Z.to_nat (width0 * height0 * 4)) w'
    /\ image (cv w') = Some (NewCanvas width0 height0)
    /\ width (cv w') = width0 /\ height (cv w') = height0
    /\ canvas (cv w') = jsRef cnv
    /\ trace w' = trace w ++ [EvNewUint8Array (length (jsheap w) + 2)
                                (Z.to_nat (width0 * height0 * 4))]
    /\ length (jsheap w') = length (jsheap w) + 3
    /\ done (cv w') = done (cv w)
    /\ goroutines w' = goroutines w
    /\ rafPending w' = rafPending w.
Proof.
  intros Hc Hw Hh.
  assert (Hz : ((width0 =? 0) || (height0 =? 0))%Z = false).
  { apply orb_false_iff. split; apply Z.eqb_neq; lia. }
  unfold Set', getContext2d, createImageData, newUint8Array, js_object, js_alloc.
  munfold. wsimpl. rewrite Hc. wsimpl.
  rewrite lookup_app_r, Nat.sub_diag by lia. cbn [lookup list_lookup].
  rewrite Hz. wsimpl.
  rewrite !Z.abs_eq, NewCanvas_length by lia.
  rewrite !length_app. cbn [length].
  replace (length (jsheap w) + 1 + 1) with (length (jsheap w) + 2) by lia.
  eexists. split; [reflexivity|].
  split; [|wsimpl; repeat split; try reflexivity;
           rewrite !length_app; cbn [length]; lia].
  split; wsimpl; eauto.
  - eexists. split; [|apply length_replicate].
    rewrite lookup_app_r; rewrite !length_app; cbn [length]; [|lia].
    replace (length (jsheap w) + 2 - (length (jsheap w) + 1 + 1)) with 0 by lia.
    reflexivity.
  - eexists. split; [|apply length_replicate].
    rewrite lookup_app_l by (rewrite !length_app; cbn [length]; lia).
    rewrite lookup_app_r; rewrite !length_app; cbn [length]; [|lia].
    replace (length (jsheap w) + 1 - (length (jsheap w) + 1)) with 0 by lia.
    reflexivity.
  - eexists.
    rewrite !lookup_app_l by (rewrite ?length_app; cbn [length]; lia).
    rewrite lookup_app_r, Nat.sub_diag by lia. reflexivity.
Qed.

(** C7. [Set] allocates one Uint8Array, of the byte length of the shadow
    frame, [width * height * 4]. Every [imgCopy] on that surface allocates
    nothing: it copies the frame's bytes into that same buffer, from it
    into the image data, and paints the image data at (0, 0) with no dirty
    rectangle; the refresh callback allocates nothing either. *)
Theorem one_transfer_buffer cnv width0 height0 w :
  jsheap w !! cnv = Some JsCanvasElement ->
  (0 < width0)%Z -> (0 < height0)%Z ->
  exists w' a i x,
    let n := Z.to_nat (width0 * height0 * 4) in
    Set' (jsRef cnv) width0 height0 w = Returns tt w'
    /\ allocs w' = S (allocs w)
    /\ trace w' = trace w ++ [EvNewUint8Array a n]
    /\ surface a i x n w'
    /\ (exists px, image (cv w') = Some px /\ length px = n)
    /\ (forall v px, surface a i x n v -> image (cv v) = Some px ->
          length px = n ->
          exists v',
            imgCopy v = Returns tt v'
            /\ allocs v' = allocs v
            /\ length (jsheap v') = length (jsheap v)
            /\ copybuff (cv v') = jsRef a
            /\ jsheap v' !! a = Some (JsUint8Array px)
            /\ jsheap v' !! i = Some (JsImageData px)
            /\ trace v' = trace v ++ [EvPutImageData x px 0 0]
            /\ surface a i x n v')
    /\ (forall v fn f T, surface a i x n v -> funcs v !! fn = Some f ->
          released f = false ->
          exists v',
            renderFrame fn T v = Returns tt v'
            /\ allocs v' = allocs v
            /\ length (jsheap v') = length (jsheap v)
            /\ surface a i x n v').
Proof.
  intros Hc Hw Hh.
  destruct (Set'_spec _ _ _ _ Hc Hw Hh)
    as (w' & HS & Hsf & Him & _ & _ & _ & Htr & _).
  exists w', (length (jsheap w) + 2), (length (jsheap w) + 1), (length (jsheap w)).
  cbv zeta. split; [assumption|].
  split; [unfold allocs; rewrite Htr, count_snoc; cbn; lia|].
  split; [assumption|]. split; [assumption|].
  split; [eexists; split; [eassumption|apply NewCanvas_length]|].
  split.
  - intros v px Hv Hpx Hlen.
    destruct (sf_buffer _ _ _ _ _ Hv) as [d [Hd Hn]].
    destruct (sf_data _ _ _ _ _ Hv) as [e [He _]].
    assert (length (jsheap w) + 2 <> length (jsheap w) + 1) by lia.
    rewrite (imgCopy_spec _ _ _ _ _ _ _ Hv Hpx Hd).
    rewrite (copied_full px d) by congruence.
    eexists. split; [reflexivity|]. wsimpl.
    split; [unfold allocs; wsimpl; rewrite count_snoc; cbn; lia|].
    split; [now rewrite !length_insert|].
    split; [apply (sf_copybuff _ _ _ _ _ Hv)|].
    split; [rewrite list_lookup_insert_ne by lia;
            apply list_lookup_insert_eq; eapply lookup_lt_Some; eauto|].
    split; [apply list_lookup_insert_eq; rewrite length_insert;
            eapply lookup_lt_Some; eauto|].
    split; [reflexivity|].
    apply surface_copied with (w := v) (c := px); wsimpl; auto.
  - intros v fn f T Hv Hf Hrel.
    destruct (renderFrame_spec _ _ _ _ _ _ _ T Hv Hf Hrel) as [v' [Hr [Ht Hv']]].
    exists v'. split; [assumption|].
    split; [exact (tk_allocs _ _ _ _ _ Ht)|].
    split; [exact (tk_heap _ _ _ _ _ Ht)|assumption].
Qed.

(** ** [Stop] and the [done] channel *)

Lemma preserves_bind P {A B} (m : M A) (k : A -> M B) :
  preserves P m -> (forall y, preserves P (k y)) -> preserves P (bind m k).
Proof.
  intros Hm Hk w Hw. unfold bind. specialize (Hm w Hw).
  destruct (m w); cbn in *; auto. now apply Hk.
Qed.

Lemma preserves_ret P {A} (y : A) : preserves P (ret y).
Proof. now intros w Hw. Qed.

Lemma preserves_gets P {A} (f : World -> A) : preserves P (gets f).
Proof. now intros w Hw. Qed.

Lemma preserves_panic P {A} : preserves P (@panic A).
Proof. now intros w Hw. Qed.

Lemma preserves_block P {A} : preserves P (@block A).
Proof. now intros w Hw. Qed.

Lemma preserves_modify P (f : World -> World) :
  (forall w, P w -> P (f w)) -> preserves P (modify f).
Proof. intros H w Hw. cbn. auto. Qed.

Lemma preserves_forM_ P {A} (l : list A) (f : A -> M unit) :
  (forall y, preserves P (f y)) -> preserves P (forM_ l f).
Proof.
  intros H. induction l; cbn; [apply preserves_ret|].
  apply preserves_bind; auto.
Qed.

Lemma preserves_js_object P v : preserves P (js_object v).
Proof.
  intros w Hw. unfold js_object.
  destruct v; cbn; auto. destruct (jsheap w !! addr); cbn; auto.
Qed.

Ltac pres_nil :=
  repeat first
    [ apply preserves_bind; [|intros ?]
    | apply preserves_ret | apply preserves_gets | apply preserves_panic
    | apply preserves_block | apply preserves_js_object
    | apply preserves_forM_; intros ?
    | apply preserves_modify; intros ? ?; assumption
    | match goal with
      | |- preserves _ (match ?y with _ => _ end) => destruct y
      end ].

Create HintDb done_nil.

Lemma done_nil_heap : forall o, preserves done_nil (js_alloc o).
Proof. now intros o w Hw. Qed.

Lemma done_nil_store : forall a o, preserves done_nil (js_store a o).
Proof. now intros a o w Hw. Qed.

Lemma done_nil_emit : forall e, preserves done_nil (emit e).
Proof. now intros e w Hw. Qed.

Lemma done_nil_raf : forall fn, preserves done_nil (requestAnimationFrame fn).
Proof. now intros fn w Hw. Qed.

Lemma done_nil_cancel : forall v, preserves done_nil (cancelAnimationFrame v).
Proof. now intros v w Hw. Qed.

#[local] Hint Resolve done_nil_heap done_nil_store done_nil_emit done_nil_raf
  done_nil_cancel : done_nil.

Lemma done_nil_Set' cnv width0 height0 :
  preserves done_nil (Set' cnv width0 height0).
Proof.
  unfold Set', getContext2d, createImageData, newUint8Array.
  pres_nil; auto with done_nil.
Qed.

Lemma done_nil_Create width0 height0 : preserves done_nil (Create width0 height0).
Proof.
  unfold Create. pres_nil; auto using done_nil_Set' with done_nil.
Qed.

Lemma NewCanvasp_done_nil create w : done_nil (world_of (NewCanvasp create w)).
Proof.
  destruct create; [|reflexivity].
  unfold NewCanvasp. unfold bind at 1. unfold modify at 1.
  cut (preserves done_nil
         (iw <- gets innerWidth ;; ih <- gets innerHeight ;; Create iw ih)).
  { intros H. apply H. reflexivity. }
  pres_nil; apply done_nil_Create.
Qed.

Lemma done_nil_SetFPS maxFPS : preserves done_nil (SetFPS maxFPS).
Proof. now intros w Hw. Qed.

Lemma done_nil_Start maxFPS r : preserves done_nil (Start maxFPS r).
Proof. now intros w Hw. Qed.

Lemma done_nil_imgCopy : preserves done_nil imgCopy.
Proof.
  unfold imgCopy, CopyBytesToJS, imageData_set, putImageData.
  pres_nil; auto with done_nil.
Qed.

Lemma done_nil_call_rf fn r : preserves done_nil (call_rf fn r).
Proof.
  intros w Hw. unfold call_rf.
  destruct (r _ _). exact Hw.
Qed.

#[local] Hint Resolve done_nil_imgCopy done_nil_call_rf : done_nil.

Lemma done_nil_renderFrame fn timestamp :
  preserves done_nil (renderFrame fn timestamp).
Proof.
  unfold renderFrame.
  pres_nil; auto with done_nil.
Qed.

Lemma done_nil_schedule : preserves done_nil schedule.
Proof.
  unfold schedule, run_goroutine, goroutine_body, release, set_goroutine.
  pres_nil; auto with done_nil.
Qed.

Lemma done_nil_refresh timestamp : preserves done_nil (refresh timestamp).
Proof.
  unfold refresh.
  pres_nil; auto with done_nil.
Qed.

Lemma done_nil_Stop : preserves done_nil Stop.
Proof.
  intros w Hw. unfold Stop, chan_send, bind, gets, js_object.
  destruct (window (cv w)); cbn; auto.
  destruct (jsheap w !! addr); cbn; auto.
  unfold done_nil in Hw. rewrite Hw. cbn. exact Hw.
Qed.

Lemma Stop_never_returns w w' : done_nil w -> Stop w <> Returns tt w'.
Proof.
  intros Hw. unfold Stop, chan_send, bind, gets, js_object.
  destruct (window (cv w)); cbn; try discriminate.
  destruct (jsheap w !! addr); cbn; try discriminate.
  unfold done_nil in Hw. rewrite Hw. discriminate.
Qed.

Lemma Stop_nil w k o :
  done_nil w ->
  window (cv w) = jsRef k ->
  jsheap w !! k = Some o ->
  Stop w = Blocks
    (set_trace (trace w ++ [EvCancelAnimationFrame (reqID (cv w))])
       (set_raf (rafCounter w)
          (List.filter (fun p => negb (fst p =? handle_of (reqID (cv w)))%Z)
                       (rafPending w)) w)).
Proof.
  intros Hw Hk Ho. unfold Stop, chan_send, cancelAnimationFrame, js_object.
  munfold. rewrite Hk, Ho. wsimpl.
  unfold done_nil in Hw. now rewrite Hw.
Qed.

(** Once a callback has run, so that [c.reqID] is the id of the pending
    request, [Stop] cancels that request before it parks on [c.done]: the
    host has nothing left to call. The callback itself tests nothing:
    called all the same, while it is not released, it renders or copies
    exactly when the gate passes, and re-arms. *)
Lemma Stop_cancels_pending w id fn k o :
  done_nil w ->
  window (cv w) = jsRef k ->
  jsheap w !! k = Some o ->
  settled w ->
  rafPending w = [(id, fn)] ->
  reqID (cv w) = jsNumber id ->
  exists w',
    Stop w = Blocks w'
    /\ rafPending w' = []
    /\ (forall T, exists w'', refresh T w' = Returns tt w''
                              /\ idle w' w'' /\ rafPending w'' = [])
    /\ (forall a i x n f T,
          surface a i x n w -> funcs w !! fn = Some f -> released f = false ->
          exists w'', renderFrame fn T w' = Returns tt w''
                      /\ (acted w' w'' <->
                          (timeStep (cv w) <=? T - lastTimestamp f)%float = true)
                      /\ rafPending w'' = [((rafCounter w + 1)%Z, fn)]).
Proof.
  intros Hn Hk Ho Hs Hp Hq.
  rewrite (Stop_nil _ _ _ Hn Hk Ho), Hp, Hq. cbn [List.filter handle_of fst].
  rewrite Z.eqb_refl. cbn [negb].
  eexists. split; [reflexivity|]. split; [reflexivity|]. split.
  - intros T. rewrite refresh_none by (wsimpl; easy).
    eexists. split; [reflexivity|]. now split.
  - intros a i x n f T Hsf Hf Hrel.
    match goal with |- context [renderFrame fn T ?v] => set (w' := v) end.
    assert (Hsf' : surface a i x n w')
      by (eapply surface_ext; eauto; apply (sf_image _ _ _ _ _ Hsf)).
    destruct (renderFrame_spec _ _ _ _ _ fn f T Hsf' Hf Hrel) as [w'' [Hr [Ht _]]].
    exists w''. split; [assumption|].
    split; [exact (acted_iff_gate _ _ _ _ _ Ht)|].
    exact (tk_pending _ _ _ _ _ Ht).
Qed.

(** A released [js.Func] does nothing when called. *)
Lemma renderFrame_released fn f timestamp w :
  funcs w !! fn = Some f ->
  released f = true ->
  renderFrame fn timestamp w
  = Returns tt (set_trace (trace w ++ [EvConsoleError]) w).
Proof.
  intros Hf Hrel. unfold renderFrame. munfold. now rewrite Hf, Hrel.
Qed.

(** C8. [Stop] after one [Start] and one shown frame: it cancels the
    pending request, then parks for ever on [c.done <- struct{}{}], for
    [c.done] is nil; it does not return, the channel is never closed, the
    goroutine stays parked and [renderFrame] is never released. Called
    before the first callback has run, it cancels nothing either, for the
    id of the first request was not kept in [c.reqID]. *)
Theorem Stop_parks_on_nil_channel :
  (exists w',
     Stop running = Blocks w'
     /\ rafPending running = [(2%Z, 0)]
     /\ rafPending w' = []
     /\ done (cv w') = NilChan
     /\ goroutines w' = [GoParked 0]
     /\ (released <$> funcs w') = [false])
  /\ (exists v v',
        schedule (started 1 1 60 None) = Returns tt v
        /\ reqID (cv v) = jsUndefined
        /\ rafPending v = [(1%Z, 0)]
        /\ Stop v = Blocks v'
        /\ rafPending v' = [(1%Z, 0)]
        /\ done (cv v') = NilChan).
Proof.
  split.
  - eexists. split; [vm_compute; reflexivity|].
    repeat split; vm_compute; reflexivity.
  - do 2 eexists.
    split; [vm_compute; reflexivity|].
    repeat split; vm_compute; reflexivity.
Qed.

(** C4. A callback that fires after [Stop] still copies a frame: [Stop]
    parks on the nil [c.done] before the goroutine can run its deferred
    [renderFrame.Release()], so the callback stays live. So it is for the
    callback the host fires when [Stop] came before the first refresh, and
    for a callback called by hand after [Stop] had cancelled the request. *)
Theorem callback_after_Stop_copies :
  (exists v' v'',
     Stop (started 1 1 60 None) = Blocks v'
     /\ refresh 17 v' = Returns tt v''
     /\ copies v'' = S (copies v')
     /\ ~ idle v' v'')
  /\ (exists w' w'',
        Stop running = Blocks w'
        /\ renderFrame 0 34 w' = Returns tt w''
        /\ copies w'' = S (copies w')
        /\ ~ idle w' w'').
Proof.
  split; do 2 eexists.
  all: split; [vm_compute; reflexivity|].
  all: split; [vm_compute; reflexivity|].
  all: split; [vm_compute; reflexivity|].
  all: unfold idle; vm_compute; intros [_ H]; discriminate H.
Qed.

(** Every world the program reaches has [c.done] nil, and there [Stop]
    does not return. *)
Lemma reachable_done_nil create maxFPS r ts iw ih :
  done_nil (run (forM_ ts refresh)
              (run (Start maxFPS r) (run (NewCanvasp create) (boot iw ih)))).
Proof.
  apply (preserves_forM_ done_nil ts refresh done_nil_refresh).
  apply (done_nil_Start maxFPS r). apply NewCanvasp_done_nil.
Qed.

(** Had [NewCanvasp] made the channel, [Stop] would do what it is for:
    it returns, the channel is closed, the goroutine has ended and released
    [renderFrame], and a callback called afterwards does nothing. *)
Lemma Stop_on_made_channel :
  exists w' w'',
    Stop (set_cv (with_done OpenChan) running) = Returns tt w'
    /\ done (cv w') = ClosedChan
    /\ goroutines w' = [GoExited]
    /\ (released <$> funcs w') = [true]
    /\ rafPending w' = []
    /\ renderFrame 0 34 w' = Returns tt w''
    /\ idle w' w''
    /\ rafPending w'' = [].
Proof.
  do 2 eexists. split; [vm_compute; reflexivity|].
  repeat split; vm_compute; reflexivity.
Qed.

Lemma Stop_before_first_callback_on_made_channel :
  exists v' v'',
    Stop (set_cv (with_done OpenChan) (started 1 1 60 None)) = Returns tt v'
    /\ (released <$> funcs v') = [true]
    /\ refresh 17 v' = Returns tt v''
    /\ idle v' v''.
Proof.
  do 2 eexists. split; [vm_compute; reflexivity|].
  repeat split; vm_compute; reflexivity.
Qed.

(** C3 (as the code has it). [Start(maxFPS, rf)] returns for every
    [maxFPS], zero and negative ones included, and signals no error: it
    stores [1000 / maxFPS] and starts the goroutine which, once it runs,
    registers the first refresh callback. *)
Theorem Start_always_returns w maxFPS r :
  settled w ->
  exists w1 w2,
    Start maxFPS r w = Returns tt w1
    /\ timeStep (cv w1) = (1000 / maxFPS)%float
    /\ rafPending w1 = rafPending w
    /\ schedule w1 = Returns tt w2
    /\ rafPending w2 = rafPending w ++ [((rafCounter w + 1)%Z, length (funcs w))]
    /\ rearms w2 = S (rearms w).
Proof.
  intros Hs.
  destruct (Start_schedule w maxFPS r Hs)
    as (w1 & w2 & HS & Hsch & Hcv1 & _ & _ & Hp1 & Hp2 & _ & _ & Ht2 & _).
  exists w1, w2. split; [assumption|].
  split; [now rewrite Hcv1|]. split; [assumption|]. split; [assumption|].
  split; [assumption|].
  unfold rearms. rewrite Ht2, count_snoc. cbn. lia.
Qed.

(** ** The scenarios, evaluated *)

Lemma page_surface : surface 6 5 4 4 page.
Proof. split; vm_compute; eauto. Qed.

Lemma page_settled : settled page.
Proof. vm_compute. constructor. Qed.

Lemma running_surface : surface 6 5 4 4 running.
Proof. split; vm_compute; eauto. Qed.

Lemma waiting_surface : surface 6 5 4 4 waiting.
Proof. split; vm_compute; eauto. Qed.

Lemma renderFrame_gates_and_rearms_witness :
  surface 6 5 4 4 running
  /\ exists w', renderFrame 0 34 running = Returns tt w'
                /\ acted running w'
                /\ rearms w' = S (rearms running).
Proof.
  split; [exact running_surface|].
  destruct (renderFrame_gates_and_rearms 6 5 4 4 running 0
              (mkFrameFunc None 17%float 0 false) 34%float
              running_surface eq_refl eq_refl)
    as (w' & Hr & Ha & _ & Hre & _).
  exists w'. split; [exact Hr|]. split; [|exact Hre].
  apply Ha. reflexivity.
Defined.

Lemma copy_at_17_only_witness :
  (forall k px, snd (always_true k px) = true)
  /\ copy_times [0; 8; 17; 33]%float
       (run (Start 60 (Some always_true)) page) = [17%float].
Proof.
  split; [reflexivity|].
  apply (copy_at_17_only 6 5 4 4 page always_true page_surface page_settled).
  - reflexivity.
  - discriminate.
  - reflexivity.
Defined.

(** C2 as the spec has it fails: no frame is copied at 33. *)
Lemma no_copy_at_33 :
  copy_times [0; 8; 17; 33]%float (run (Start 60 (Some always_true)) page)
  <> [17; 33]%float.
Proof. vm_compute. discriminate. Qed.

Lemma Start_always_returns_witness :
  settled page
  /\ exists w1 w2,
       Start 0 None page = Returns tt w1
       /\ timeStep (cv w1) = (1000 / 0)%float
       /\ rafPending w1 = rafPending page
       /\ schedule w1 = Returns tt w2
       /\ rafPending w2 = rafPending page
                          ++ [((rafCounter page + 1)%Z, length (funcs page))]
       /\ rearms w2 = S (rearms page).
Proof.
  split; [exact page_settled|].
  exact (Start_always_returns page 0%float None page_settled).
Defined.

(** C3 as the spec has it fails: [Start(0, nil)] returns, the interval
    being +Inf; so does [Start(-1, nil)], the interval being -1000. *)
Lemma Start_nonpositive_FPS_returns :
  (0 <=? 0)%float = true
  /\ (exists w', Start 0 None page = Returns tt w'
                 /\ timeStep (cv w') = infinity)
  /\ (-1 <=? 0)%float = true
  /\ (exists w', Start (-1) None page = Returns tt w'
                 /\ timeStep (cv w') = (-1000)%float).
Proof.
  split; [reflexivity|]. split.
  - eexists. split; [reflexivity|]. reflexivity.
  - split; [reflexivity|]. eexists. split; [reflexivity|]. reflexivity.
Qed.

Lemma lastTimestamp_follows_gate_witness :
  surface 6 5 4 4 waiting
  /\ changed waiting (mkFrameFunc (Some never_changed) 0%float 0 false) = false
  /\ exists w' f',
       renderFrame 0 17 waiting = Returns tt w'
       /\ funcs w' !! 0 = Some f'
       /\ lastTimestamp f' = 17%float
       /\ copies w' = copies waiting.
Proof.
  split; [exact waiting_surface|]. split; [reflexivity|].
  destruct (lastTimestamp_follows_gate 6 5 4 4 waiting 0
              (mkFrameFunc (Some never_changed) 0%float 0 false) 17%float
              waiting_surface eq_refl eq_refl eq_refl)
    as (w' & f' & Hr & Hf & Hl & Hc).
  exists w', f'. repeat (split; [assumption|]).
  apply Hc. reflexivity.
Defined.

Lemma one_transfer_buffer_witness :
  jsheap page !! 3 = Some JsCanvasElement
  /\ exists w' a i x,
       Set' (jsRef 3) 2 2 page = Returns tt w'
       /\ allocs w' = S (allocs page)
       /\ surface a i x 16 w'.
Proof.
  split; [reflexivity|].
  destruct (one_transfer_buffer 3 2 2 page eq_refl eq_refl eq_refl)
    as (w' & a & i & x & H). cbv zeta in H.
  destruct H as (HS & Ha & _ & Hsf & _).
  exists w', a, i, x.
  split; [exact HS|]. split; [exact Ha|]. exact Hsf.
Defined.

Lemma first_callback_gate_witness :
  surface 6 5 4 4 page
  /\ settled page
  /\ (0 <? 1000 / 60)%float = true
  /\ exists w1 w2,
       Start 60 None page = Returns tt w1
       /\ refresh 0 w1 = Returns tt w2
       /\ idle w1 w2.
Proof.
  split; [exact page_surface|]. split; [exact page_settled|].
  split; [reflexivity|].
  destruct (first_callback_gate 6 5 4 4 page 60%float None 0%float
              page_surface page_settled eq_refl)
    as (w1 & ws & w2 & f & HS & _ & _ & _ & Hr & _ & Hi).
  { discriminate. }
  exists w1, w2. split; [assumption|]. split; [assumption|].
  apply Hi; reflexivity.
Defined.

(** C10 as the spec has it fails: with [maxFPS = +Inf] the interval is 0
    and the first callback, at timestamp 0, copies a frame. *)
Lemma first_callback_at_0_copies :
  (0 <? infinity)%float = true
  /\ (1000 / infinity)%float = 0%float
  /\ exists w2,
       refresh 0 (started 1 1 infinity None) = Returns tt w2
       /\ copies w2 = S (copies (started 1 1 infinity None))
       /\ ~ idle (started 1 1 infinity None) w2.
Proof.
  split; [reflexivity|]. split; [reflexivity|].
  eexists. split; [vm_compute; reflexivity|].
  split; [vm_compute; reflexivity|].
  unfold idle. vm_compute. intros [_ H]. discriminate H.
Qed.


(** * Further properties of the package *)

(** ** Degenerate intervals *)

Lemma float_leb_infinity (x : float) :
  (infinity <=? x)%float = true <-> x = infinity.
Proof.
  rewrite leb_spec.
  change (Prim2SF infinity) with (S754_infinity false).
  split.
  - intros H. apply Prim2SF_inj.
    change (Prim2SF infinity) with (S754_infinity false).
    destruct (Prim2SF x) as [[]|[]| |[] m e]; try discriminate H; reflexivity.
  - intros ->. reflexivity.
Qed.

Lemma float_leb_nan (x : float) : (nan <=? x)%float = false.
Proof.
  rewrite leb_spec. change (Prim2SF nan) with S754_nan. reflexivity.
Qed.

(** X1. [SetFPS(0)] stores the interval +Inf and stops the presentation:
    a live callback then renders or copies only if [T - lastTimestamp] is
    itself +Inf. [SetFPS(NaN)] stores NaN, and no callback ever renders or
    copies. In both cases the callback still returns and re-arms. *)
Theorem zero_or_nan_FPS_freezes a i x n w fn f T :
  surface a i x n w ->
  funcs w !! fn = Some f ->
  released f = false ->
  (exists w0 w',
     SetFPS 0 w = Returns tt w0
     /\ timeStep (cv w0) = infinity
     /\ renderFrame fn T w0 = Returns tt w'
     /\ (acted w0 w' <-> (T - lastTimestamp f)%float = infinity)
     /\ rearms w' = S (rearms w0))
  /\ (exists w0 w',
        SetFPS nan w = Returns tt w0
        /\ timeStep (cv w0) = nan
        /\ renderFrame fn T w0 = Returns tt w'
        /\ idle w0 w'
        /\ rearms w' = S (rearms w0)).
Proof.
  intros Hs Hf Hrel. split.
  - set (w0 := set_cv (with_timeStep (1000 / 0)%float) w).
    assert (Hs0 : surface a i x n w0)
      by (eapply surface_ext; eauto; apply (sf_image _ _ _ _ _ Hs)).
    destruct (renderFrame_spec _ _ _ _ _ fn f T Hs0 Hf Hrel) as [w' [Hr [Ht _]]].
    exists w0, w'. split; [reflexivity|]. split; [reflexivity|].
    split; [assumption|]. split; [|exact (tk_rearms _ _ _ _ _ Ht)].
    rewrite (acted_iff_gate _ _ _ _ _ Ht). unfold gate, w0. wsimpl.
    change (1000 / 0)%float with infinity. apply float_leb_infinity.
  - set (w0 := set_cv (with_timeStep (1000 / nan)%float) w).
    assert (Hs0 : surface a i x n w0)
      by (eapply surface_ext; eauto; apply (sf_image _ _ _ _ _ Hs)).
    destruct (renderFrame_spec _ _ _ _ _ fn f T Hs0 Hf Hrel) as [w' [Hr [Ht _]]].
    exists w0, w'. split; [reflexivity|]. split; [reflexivity|].
    split; [assumption|]. split; [|exact (tk_rearms _ _ _ _ _ Ht)].
    apply (idle_of_gate _ _ _ _ _ Ht). unfold gate, w0. wsimpl.
    change (1000 / nan)%float with nan. apply float_leb_nan.
Qed.

Lemma zero_or_nan_FPS_freezes_witness :
  surface 6 5 4 4 running
  /\ exists w0 w',
       SetFPS 0 running = Returns tt w0
       /\ renderFrame 0 1000000 w0 = Returns tt w'
       /\ (acted w0 w' <-> (1000000 - 17)%float = infinity)
       /\ rearms w' = S (rearms w0).
Proof.
  split; [exact running_surface|].
  destruct (zero_or_nan_FPS_freezes 6 5 4 4 running 0
              (mkFrameFunc None 17%float 0 false) 1000000%float
              running_surface eq_refl eq_refl)
    as [(w0 & w' & HS & _ & Hr & Ha & Hre) _].
  exists w0, w'. split; [exact HS|]. split; [exact Hr|].
  split; [exact Ha|exact Hre].
Defined.

(** ** One call of the callback, in detail *)



(** X3. The render step runs before the copy, and the frame copied is
    the one it has just drawn: when the gate is open and [rf] answers true
    having drawn [px'] (of the surface's size), the call leaves exactly the
    render call, [putImageData] of [px'] at (0, 0) and the re-arm, in that
    order; [px'] is in the shadow frame, the transfer buffer and the image
    data. *)
Theorem render_then_copy_of_drawn_frame a i x n w fn f r px px' T :
  surface a i x n w ->
  funcs w !! fn = Some f ->
  released f = false ->
  rf f = Some r ->
  image (cv w) = Some px ->
  r (calls f) px = (px', true) ->
  length px' = n ->
  gate w f T = true ->
  exists w' f',
    renderFrame fn T w = Returns tt w'
    /\ trace w' = trace w ++ [EvRender fn (calls f);
                              EvPutImageData x px' 0 0;
                              EvRequestAnimationFrame fn (rafCounter w + 1)]
    /\ image (cv w') = Some px'
    /\ jsheap w' !! a = Some (JsUint8Array px')
    /\ jsheap w' !! i = Some (JsImageData px')
    /\ funcs w' !! fn = Some f'
    /\ calls f' = S (calls f)
    /\ lastTimestamp f' = T.
Proof.
  intros Hs Hf Hrel Hr Hpx Er Hlen G.
  destruct (sf_buffer _ _ _ _ _ Hs) as [d [Hd Hn]].
  destruct (sf_data _ _ _ _ _ Hs) as [e [He _]].
  assert (Hai : a <> i) by (intros ->; congruence).
  unfold renderFrame. munfold. wsimpl. rewrite Hf, Hrel.
  unfold gate in G. rewrite G, Hr.
  unfold call_rf. rewrite Hf, Hpx.
  cbn [from_option id fmap option_fmap option_map]. rewrite Er.
  erewrite imgCopy_spec; [| |wsimpl; reflexivity|wsimpl; eassumption].
  2:{ eapply surface_ext; [eassumption|wsimpl..]; eauto. }
  rewrite (copied_full px' d) by congruence.
  unfold requestAnimationFrame. wsimpl.
  eexists. eexists. split; [reflexivity|]. wsimpl.
  split; [now rewrite <- !app_assoc|].
  split; [reflexivity|].
  split; [rewrite list_lookup_insert_ne by congruence;
          apply list_lookup_insert_eq; eapply lookup_lt_Some; eauto|].
  split; [apply list_lookup_insert_eq; rewrite length_insert;
          eapply lookup_lt_Some; eauto|].
  rewrite list_lookup_alter_eq, list_lookup_alter_eq, Hf.
  split; [reflexivity|]. split; reflexivity.
Qed.

Lemma render_then_copy_of_drawn_frame_witness :
  always_true 0 [Byte.x00; Byte.x00; Byte.x00; Byte.x00]
  = ([Byte.x00; Byte.x00; Byte.x00; Byte.x00], true)
  /\ exists w',
       renderFrame 0 17 (run schedule (started 1 1 60 (Some always_true)))
       = Returns tt w'
       /\ trace w'
          = trace (run schedule (started 1 1 60 (Some always_true)))
            ++ [EvRender 0 0;
                EvPutImageData 4 [Byte.x00; Byte.x00; Byte.x00; Byte.x00] 0 0;
                EvRequestAnimationFrame 0 2].
Proof.
  split; [reflexivity|].
  assert (Hs : surface 6 5 4 4 (run schedule (started 1 1 60 (Some always_true))))
    by (split; vm_compute; eauto).
  destruct (render_then_copy_of_drawn_frame 6 5 4 4
              (run schedule (started 1 1 60 (Some always_true))) 0
              (mkFrameFunc (Some always_true) 0%float 0 false) always_true
              [Byte.x00; Byte.x00; Byte.x00; Byte.x00]
              [Byte.x00; Byte.x00; Byte.x00; Byte.x00] 17%float
              Hs eq_refl eq_refl eq_refl eq_refl eq_refl eq_refl eq_refl)
    as (w' & f' & Hr & Ht & _).
  exists w'. split; [exact Hr|exact Ht].
Defined.

(** ** The copy on a surface of another size, and with no surface *)

(** X4. [imgCopy] never fails on a frame whose length is not the
    buffer's (a render step may have resized the shadow frame): it copies
    the first [min] bytes and presents a full buffer, a longer frame cut to
    the buffer's length, a shorter one followed by what the buffer held. *)
Theorem imgCopy_on_size_mismatch a i x n v px d :
  surface a i x n v ->
  image (cv v) = Some px ->
  jsheap v !! a = Some (JsUint8Array d) ->
  exists v' data,
    imgCopy v = Returns tt v'
    /\ trace v' = trace v ++ [EvPutImageData x data 0 0]
    /\ length data = n
    /\ take (Nat.min n (length px)) data = take (Nat.min n (length px)) px
    /\ drop (Nat.min n (length px)) data = drop (Nat.min n (length px)) d
    /\ (n <= length px -> data = take n px)
    /\ jsheap v' !! a = Some (JsUint8Array data)
    /\ image (cv v') = Some px.
Proof.
  intros Hs Hpx Hd.
  destruct (sf_buffer _ _ _ _ _ Hs) as [d' [Hd' Hn]].
  assert (d' = d) by congruence; subst d'.
  destruct (sf_data _ _ _ _ _ Hs) as [e [He _]].
  assert (Hai : a <> i) by (intros ->; congruence).
  rewrite (imgCopy_spec _ _ _ _ _ _ _ Hs Hpx Hd).
  exists (set_trace (trace v ++ [EvPutImageData x (copied px d) 0 0])
            (set_jsheap (<[i := JsImageData (copied px d)]>
                           (<[a := JsUint8Array (copied px d)]> (jsheap v))) v)),
         (copied px d).
  split; [reflexivity|]. wsimpl. split; [reflexivity|].
  split; [now rewrite copied_length|].
  assert (Hm : length (take (Nat.min n (length px)) px) = Nat.min n (length px))
    by (rewrite length_take; lia).
  unfold copied. rewrite Hn.
  split; [now rewrite take_app_length' by (symmetry; exact Hm)|].
  split; [now rewrite drop_app_length' by (symmetry; exact Hm)|].
  split.
  - intros Hle. rewrite Nat.min_l by lia.
    rewrite drop_ge by lia. apply app_nil_r.
  - split; [|assumption].
    rewrite list_lookup_insert_ne by congruence.
    apply list_lookup_insert_eq. eapply lookup_lt_Some; eauto.
Qed.

Lemma imgCopy_on_size_mismatch_witness :
  surface 6 5 4 4 page
  /\ exists v' data,
       imgCopy (set_cv (with_image (Some (replicate 6 Byte.x01))) page)
       = Returns tt v'
       /\ length data = 4
       /\ data = take 4 (replicate 6 Byte.x01).
Proof.
  split; [exact page_surface|].
  assert (Hs : surface 6 5 4 4
                 (set_cv (with_image (Some (replicate 6 Byte.x01))) page))
    by (split; vm_compute; eauto).
  destruct (imgCopy_on_size_mismatch 6 5 4 4 _ (replicate 6 Byte.x01)
              (replicate 4 Byte.x00) Hs eq_refl eq_refl)
    as (v' & data & Hr & _ & Hl & _ & _ & Ht & _).
  exists v', data. split; [exact Hr|]. split; [exact Hl|].
  apply Ht. vm_compute. lia.
Defined.

(** X5. With no surface set up ([c.image] nil, as [NewCanvasp(false)]
    leaves it), a call of a live callback whose gate is open and whose [rf]
    is nil panics in [imgCopy], on [c.image.Pixels()]: nothing is copied,
    [lastTimestamp] is not updated and the callback does not re-arm. *)
Theorem callback_without_surface_panics w fn f T :
  image (cv w) = None ->
  funcs w !! fn = Some f ->
  released f = false ->
  rf f = None ->
  gate w f T = true ->
  renderFrame fn T w = Panics w.
Proof.
  intros Him Hf Hrel Hr G.
  unfold renderFrame. munfold. wsimpl. rewrite Hf, Hrel.
  unfold gate in G. rewrite G, Hr.
  unfold imgCopy. munfold. now rewrite Him.
Qed.

Lemma callback_without_surface_panics_witness :
  image (cv (run (NewCanvasp false) (boot 1 1))) = None
  /\ renderFrame 0 17
       (run schedule (run (Start 60 None) (run (NewCanvasp false) (boot 1 1))))
     = Panics
         (run schedule (run (Start 60 None) (run (NewCanvasp false) (boot 1 1)))).
Proof.
  split; [reflexivity|].
  exact (callback_without_surface_panics
           (run schedule (run (Start 60 None) (run (NewCanvasp false) (boot 1 1))))
           0 (mkFrameFunc None 0%float 0 false) 17%float
           eq_refl eq_refl eq_refl eq_refl eq_refl).
Defined.



(** ** Runs of refreshes *)

Lemma refresh_ticked a i x n w id fn f T :
  settled w ->
  rafPending w = [(id, fn)] ->
  surface a i x n w ->
  funcs w !! fn = Some f ->
  released f = false ->
  exists w', refresh T w = Returns tt w'
             /\ ticked fn T f (set_raf (rafCounter w) [] w) w'
             /\ surface a i x n w'.
Proof.
  intros Hs Hp Hsf Hf Hrel.
  assert (Hsf' : surface a i x n (set_raf (rafCounter w) [] w))
    by (eapply surface_ext; eauto; apply (sf_image _ _ _ _ _ Hsf)).
  destruct (renderFrame_spec _ _ _ _ _ fn f T Hsf' Hf Hrel) as [w' [Hr H]].
  exists w'. split; [|exact H].
  eapply refresh_one; eauto using schedule_settled.
Qed.

Lemma refresh_run a i x n ts : forall w id fn f,
  surface a i x n w ->
  settled w ->
  rafPending w = [(id, fn)] ->
  funcs w !! fn = Some f ->
  released f = false ->
  exists w' id' f',
    forM_ ts refresh w = Returns tt w'
    /\ rafPending w' = [(id', fn)]
    /\ (ts <> [] -> id' = rafCounter w' /\ reqID (cv w') = jsNumber id')
    /\ rafCounter w' = (rafCounter w + Z.of_nat (length ts))%Z
    /\ rearms w' = rearms w + length ts
    /\ allocs w' = allocs w
    /\ length (jsheap w') = length (jsheap w)
    /\ done (cv w') = done (cv w)
    /\ window (cv w') = window (cv w)
    /\ timeStep (cv w') = timeStep (cv w)
    /\ funcs w' !! fn = Some f'
    /\ released f' = false
    /\ rf f' = rf f
    /\ surface a i x n w'
    /\ settled w'.
Proof.
  induction ts as [|T ts IH]; intros w id fn f Hsf Hs Hp Hf Hrel.
  - exists w, id, f. cbn [forM_ length]. unfold ret.
    split; [reflexivity|]. split; [assumption|].
    split; [intros H; now contradiction H|].
    split; [lia|]. split; [lia|].
    repeat (split; [reflexivity|]). repeat (split; [assumption|]).
    split; [reflexivity|]. split; assumption.
  - destruct (refresh_ticked _ _ _ _ _ _ _ _ T Hs Hp Hsf Hf Hrel)
      as (w1 & Hr & Ht & Hsf1).
    destruct (tk_func _ _ _ _ _ Ht) as (f1 & Hf1 & Hrf1 & Hrel1 & _).
    assert (Hs1 : settled w1)
      by (unfold settled; now rewrite (tk_goroutines _ _ _ _ _ Ht)).
    pose proof (tk_pending _ _ _ _ _ Ht) as Hp1. cbn [rafPending set_raf app] in Hp1.
    destruct (IH w1 _ fn f1 Hsf1 Hs1 Hp1 Hf1 Hrel1)
      as (w' & id' & f' & Hrun & Hp' & Hid & Hc & Hre & Hal & Hh & Hd & Hw & Hti
          & Hf' & Hrel' & Hrf' & Hsf' & Hs').
    exists w', id', f'. cbn [forM_ length]. unfold bind. rewrite Hr.
    split; [exact Hrun|]. split; [exact Hp'|].
    pose proof (tk_counter _ _ _ _ _ Ht) as Hc1. cbn [rafCounter set_raf] in Hc1.
    split.
    { intros _. destruct ts as [|T' ts'].
      - cbn [forM_] in Hrun. unfold ret in Hrun. inversion Hrun; subst w'.
        rewrite Hp1 in Hp'. inversion Hp'; subst id'.
        split; [now rewrite Hc1|].
        rewrite (tk_reqID _ _ _ _ _ Ht). reflexivity.
      - apply Hid. discriminate. }
    split; [rewrite Hc, Hc1; lia|].
    split; [rewrite Hre, (tk_rearms _ _ _ _ _ Ht); unfold rearms; wsimpl; lia|].
    split; [rewrite Hal, (tk_allocs _ _ _ _ _ Ht); reflexivity|].
    split; [rewrite Hh, (tk_heap _ _ _ _ _ Ht); reflexivity|].
    split; [rewrite Hd, (tk_done _ _ _ _ _ Ht); reflexivity|].
    split; [rewrite Hw, (tk_window _ _ _ _ _ Ht); reflexivity|].
    split; [rewrite Hti, (tk_timeStep _ _ _ _ _ Ht); reflexivity|].
    split; [exact Hf'|]. split; [exact Hrel'|].
    split; [now rewrite Hrf', Hrf1|]. split; assumption.
Qed.

(** X7. Through any run of refreshes the loop keeps exactly one request
    pending, its own: every refresh hands out one new id and re-arms once,
    so after [k] refreshes the counter has advanced by [k] and, for
    [k > 0], [c.reqID] is the id of the one pending request. No refresh
    allocates a buffer or a heap object. *)
Theorem one_request_pending_throughout a i x n ts w id fn f :
  surface a i x n w ->
  settled w ->
  rafPending w = [(id, fn)] ->
  funcs w !! fn = Some f ->
  released f = false ->
  exists w' id',
    forM_ ts refresh w = Returns tt w'
    /\ rafPending w' = [(id', fn)]
    /\ (ts <> [] -> id' = rafCounter w' /\ reqID (cv w') = jsNumber id')
    /\ rafCounter w' = (rafCounter w + Z.of_nat (length ts))%Z
    /\ rearms w' = rearms w + length ts
    /\ allocs w' = allocs w
    /\ length (jsheap w') = length (jsheap w).
Proof.
  intros Hsf Hs Hp Hf Hrel.
  destruct (refresh_run _ _ _ _ ts _ _ _ _ Hsf Hs Hp Hf Hrel)
    as (w' & id' & f' & H1 & H2 & H3 & H4 & H5 & H6 & H7 & _).
  exists w', id'. repeat (split; [assumption|]). assumption.
Qed.

Lemma one_request_pending_throughout_witness :
  surface 6 5 4 4 running
  /\ rafPending running = [(2%Z, 0)]
  /\ exists w' id',
       forM_ [20; 40; 60]%float refresh running = Returns tt w'
       /\ rafPending w' = [(id', 0)]
       /\ rafCounter w' = 5%Z.
Proof.
  split; [exact running_surface|]. split; [reflexivity|].
  assert (Hs : settled running) by (vm_compute; repeat constructor).
  destruct (one_request_pending_throughout 6 5 4 4 [20; 40; 60]%float running
              2%Z 0 (mkFrameFunc None 17%float 0 false)
              running_surface Hs eq_refl eq_refl eq_refl)
    as (w' & id' & Hr & Hp & _ & Hc & _).
  exists w', id'. split; [exact Hr|]. split; [exact Hp|exact Hc].
Defined.

(** X8. [Stop] after at least one refresh cancels the loop's only pending
    request (and then parks on the nil [c.done]): the host has no callback
    left, and every later refresh returns without render step, copy or
    new request. *)
Theorem Stop_after_a_refresh_leaves_nothing_pending a i x n ts w id fn f k :
  surface a i x n w ->
  settled w ->
  rafPending w = [(id, fn)] ->
  funcs w !! fn = Some f ->
  released f = false ->
  done_nil w ->
  window (cv w) = jsRef k ->
  k < length (jsheap w) ->
  ts <> [] ->
  exists w' w'',
    forM_ ts refresh w = Returns tt w'
    /\ Stop w' = Blocks w''
    /\ rafPending w'' = []
    /\ forall T, exists v, refresh T w'' = Returns tt v
                           /\ idle w'' v /\ rafPending v = []
                           /\ rearms v = rearms w''.
Proof.
  intros Hsf Hs Hp Hf Hrel Hn Hk Hlt Hts.
  destruct (refresh_run _ _ _ _ ts _ _ _ _ Hsf Hs Hp Hf Hrel)
    as (w' & id' & f' & Hrun & Hp' & Hid & _ & _ & _ & Hh & Hd & Hw & _ & _ & _
        & _ & _ & Hs').
  destruct (Hid Hts) as [_ Hq].
  assert (Hn' : done_nil w') by (unfold done_nil in *; congruence).
  assert (Hk' : window (cv w') = jsRef k) by congruence.
  destruct (lookup_lt_is_Some_2 (jsheap w') k) as [o Ho]; [lia|].
  exists w'. eexists. split; [exact Hrun|].
  rewrite (Stop_nil _ _ _ Hn' Hk' Ho), Hp', Hq.
  cbn [List.filter handle_of fst]. rewrite Z.eqb_refl. cbn [negb].
  split; [reflexivity|]. split; [reflexivity|].
  intros T. rewrite refresh_none by (wsimpl; easy).
  eexists. split; [reflexivity|]. repeat split.
Qed.

Lemma Stop_after_a_refresh_leaves_nothing_pending_witness :
  surface 6 5 4 4 running
  /\ done_nil running
  /\ exists w' w'',
       forM_ [40]%float refresh running = Returns tt w'
       /\ Stop w' = Blocks w''
       /\ rafPending w'' = [].
Proof.
  split; [exact running_surface|]. split; [reflexivity|].
  assert (Hs : settled running) by (vm_compute; repeat constructor).
  assert (Hlt : 0 < length (jsheap running)) by (vm_compute; lia).
  destruct (Stop_after_a_refresh_leaves_nothing_pending 6 5 4 4 [40%float]
              running 2%Z 0 (mkFrameFunc None 17%float 0 false) 0
              running_surface Hs eq_refl eq_refl eq_refl eq_refl eq_refl Hlt)
    as (w' & w'' & Hr & HS & Hp & _).
  { discriminate. }
  exists w', w''. split; [exact Hr|]. split; [exact HS|exact Hp].
Defined.

(** ** What no run changes *)

Lemma done_nil_step o : preserves done_nil (step o).
Proof.
  destruct o; cbn [step];
    auto using done_nil_SetFPS, done_nil_Start, done_nil_Set', done_nil_Create,
      done_nil_refresh, done_nil_renderFrame, done_nil_Stop.
Qed.

Lemma exec_snoc ops o w : exec (ops ++ [o]) w = run (step o) (exec ops w).
Proof. unfold exec. now rewrite fold_left_app. Qed.

Lemma done_nil_exec ops w : done_nil w -> done_nil (exec ops w).
Proof.
  intros Hw. induction ops as [|o ops IH] using rev_ind; [exact Hw|].
  rewrite exec_snoc. apply (done_nil_step o). exact IH.
Qed.

(** X9. No run makes the channel: after [NewCanvasp] and any calls of
    [SetFPS], [Start], [Set], [Create], [Stop] and any refreshes and
    callbacks, [c.done] is still nil, and [Stop] does not return: it parks
    or, where [c.window] is no object, panics. *)
Theorem Stop_returns_in_no_run create ops w :
  done (cv (exec ops (run (NewCanvasp create) w))) = NilChan
  /\ exists v, Stop (exec ops (run (NewCanvasp create) w)) = Blocks v
               \/ Stop (exec ops (run (NewCanvasp create) w)) = Panics v.
Proof.
  pose proof (done_nil_exec ops _ (NewCanvasp_done_nil create w)) as Hn.
  split; [exact Hn|].
  set (u := exec ops (run (NewCanvasp create) w)) in *.
  unfold Stop, chan_send, cancelAnimationFrame, js_object. munfold.
  destruct (window (cv u)); try (eexists; right; reflexivity).
  destruct (jsheap u !! addr); try (eexists; right; reflexivity).
  wsimpl. change (done (cv u) = NilChan) in Hn. rewrite Hn.
  eexists. left. reflexivity.
Qed.


Section SetupKept.
Variable c : Z * Z * (jsValue * jsValue * jsValue * jsValue)
             * jsValue * jsValue * jsValue.

Let kept (w : World) : Prop := setup w = c.

Lemma setup_js_alloc o : preserves kept (js_alloc o).
Proof. now intros w Hw. Qed.

Lemma setup_raf fn : preserves kept (requestAnimationFrame fn).
Proof. now intros w Hw. Qed.

Lemma setup_call_rf fn r : preserves kept (call_rf fn r).
Proof. intros w Hw. unfold call_rf. destruct (r _ _). exact Hw. Qed.

Lemma setup_imgCopy : preserves kept imgCopy.
Proof.
  unfold imgCopy, CopyBytesToJS, imageData_set, putImageData.
  pres_nil.
Qed.

Lemma setup_renderFrame fn timestamp : preserves kept (renderFrame fn timestamp).
Proof.
  unfold renderFrame.
  pres_nil; auto using setup_raf, setup_call_rf, setup_imgCopy.
Qed.

Lemma setup_schedule : preserves kept schedule.
Proof.
  unfold schedule, run_goroutine, goroutine_body, release, set_goroutine.
  pres_nil; auto using setup_raf.
Qed.

Lemma setup_refresh timestamp : preserves kept (refresh timestamp).
Proof.
  unfold refresh.
  pres_nil; auto using setup_schedule, setup_renderFrame, setup_raf,
    setup_call_rf, setup_imgCopy.
Qed.

Lemma setup_Stop : preserves kept Stop.
Proof.
  unfold Stop, cancelAnimationFrame, chan_send, chan_close, wake, release,
    set_goroutine.
  pres_nil; auto using setup_schedule, setup_raf.
Qed.

Lemma setup_step o : keeps_surface o = true -> preserves kept (step o).
Proof.
  destruct o; cbn [step keeps_surface]; intros H; try discriminate H.
  - now intros w Hw.
  - now intros w Hw.
  - apply setup_refresh.
  - apply setup_renderFrame.
  - apply setup_Stop.
Qed.

Lemma setup_exec ops w :
  forallb keeps_surface ops = true -> kept w -> kept (exec ops w).
Proof.
  intros Hk Hw. induction ops as [|o ops IH] using rev_ind; [exact Hw|].
  rewrite forallb_app in Hk. apply andb_prop in Hk as [Hk1 Hk2].
  cbn in Hk2. rewrite andb_true_r in Hk2.
  rewrite exec_snoc. apply (setup_step o Hk2). now apply IH.
Qed.
End SetupKept.

(** X10. Only [NewCanvasp], [Create] and [Set] touch the set-up: through
    any run of [SetFPS], [Start], [Stop], refreshes and callbacks, whether
    the calls return, panic or park, [Width()] and [Height()] answer as
    before and [c.canvas], [c.ctx], [c.imgData], [c.copybuff], [c.window],
    [c.doc] and [c.body] are the same values. *)
Theorem setup_kept_by_runs ops w :
  forallb keeps_surface ops = true ->
  setup (exec ops w) = setup w
  /\ Width (exec ops w) = Returns (width (cv w)) (exec ops w)
  /\ Height (exec ops w) = Returns (height (cv w)) (exec ops w).
Proof.
  intros Hk.
  pose proof (setup_exec (setup w) ops w Hk eq_refl) as H.
  split; [exact H|].
  unfold setup, dims in H. unfold Width, Height, gets.
  inversion H as [[Hw Hh Hc]]. now rewrite Hw, Hh.
Qed.

Lemma setup_kept_by_runs_witness :
  setup (exec [OpStart 60 None; OpRefresh 17; OpSetFPS 30; OpRefresh 80; OpStop;
               OpCallback 0 120] page)
  = setup page.
Proof.
  exact (proj1 (setup_kept_by_runs
                  [OpStart 60 None; OpRefresh 17; OpSetFPS 30; OpRefresh 80;
                   OpStop; OpCallback 0 120] page eq_refl)).
Defined.

(** ** Making the surface *)

Lemma Set'_world cnv width0 height0 w :
  jsheap w !! cnv = Some JsCanvasElement ->
  (0 < width0)%Z -> (0 < height0)%Z ->
  exists w',
    Set' (jsRef cnv) width0 height0 w = Returns tt w'
    /\ cv w' = mkCanvasp (done (cv w)) (window (cv w)) (doc (cv w)) (body (cv w))
                 (jsRef cnv) (jsRef (length (jsheap w)))
                 (jsRef (length (jsheap w) + 1)) width0 height0
                 (Some (NewCanvas width0 height0)) (reqID (cv w))
                 (timeStep (cv w)) (jsRef (length (jsheap w) + 2))
    /\ jsheap w' = jsheap w
                   ++ [JsContext2D cnv;
                       JsImageData (replicate (Z.to_nat (width0 * height0 * 4)) Byte.x00);
                       JsUint8Array (replicate (Z.to_nat (width0 * height0 * 4)) Byte.x00)]
    /\ trace w' = trace w ++ [EvNewUint8Array (length (jsheap w) + 2)
                                (Z.to_nat (width0 * height0 * 4))]
    /\ goroutines w' = goroutines w
    /\ funcs w' = funcs w
    /\ rafCounter w' = rafCounter w
    /\ rafPending w' = rafPending w.
Proof.
  intros Hc Hw Hh.
  assert (Hz : ((width0 =? 0) || (height0 =? 0))%Z = false).
  { apply orb_false_iff. split; apply Z.eqb_neq; lia. }
  unfold Set', getContext2d, createImageData, newUint8Array, js_object, js_alloc.
  munfold. wsimpl. rewrite Hc. wsimpl.
  rewrite lookup_app_r, Nat.sub_diag by lia. cbn [lookup list_lookup].
  rewrite Hz. wsimpl.
  rewrite !Z.abs_eq, NewCanvas_length by lia.
  rewrite !length_app. cbn [length].
  replace (length (jsheap w) + 1 + 1) with (length (jsheap w) + 2) by lia.
  eexists. split; [reflexivity|]. wsimpl.
  split; [reflexivity|]. split; [now rewrite <- !app_assoc|].
  repeat split.
Qed.

Lemma Create_world w d b od ob width0 height0 :
  doc (cv w) = jsRef d ->
  jsheap w !! d = Some od ->
  body (cv w) = jsRef b ->
  jsheap w !! b = Some ob ->
  (0 < width0)%Z -> (0 < height0)%Z ->
  exists w',
    let n := Z.to_nat (width0 * height0 * 4) in
    let h := length (jsheap w) in
    Create width0 height0 w = Returns tt w'
    /\ Width w' = Returns width0 w'
    /\ Height w' = Returns height0 w'
    /\ canvas (cv w') = jsRef h
    /\ surface (h + 3) (h + 2) (h + 1) n w'
    /\ image (cv w') = Some (replicate n Byte.x00)
    /\ jsheap w' = jsheap w ++ [JsCanvasElement; JsContext2D h;
                                JsImageData (replicate n Byte.x00);
                                JsUint8Array (replicate n Byte.x00)]
    /\ allocs w' = S (allocs w)
    /\ done (cv w') = done (cv w)
    /\ reqID (cv w') = reqID (cv w)
    /\ timeStep (cv w') = timeStep (cv w)
    /\ rafPending w' = rafPending w
    /\ funcs w' = funcs w.
Proof.
  intros Hd Hod Hb Hob Hw Hh.
  set (w1 := set_jsheap (jsheap w ++ [JsCanvasElement]) w).
  assert (Hc : jsheap w1 !! length (jsheap w) = Some JsCanvasElement).
  { unfold w1. wsimpl. now rewrite lookup_app_r, Nat.sub_diag by lia. }
  assert (Hl1 : length (jsheap w1) = length (jsheap w) + 1).
  { unfold w1. wsimpl. rewrite length_app. cbn. lia. }
  assert (HC : Create width0 height0 w
               = Set' (jsRef (length (jsheap w))) width0 height0 w1).
  { unfold Create, js_object, js_alloc. munfold. rewrite Hd, Hod, Hb. wsimpl.
    rewrite (lookup_app_l_Some _ _ _ _ Hob). reflexivity. }
  destruct (Set'_world _ _ _ _ Hc Hw Hh)
    as (w' & HS & Hcv & Hhp & Htr & _ & Hfs & _ & Hpe).
  destruct (Set'_spec _ _ _ _ Hc Hw Hh) as (w2 & HS2 & Hsf & _).
  assert (w2 = w') by congruence. subst w2.
  rewrite Hl1 in Hcv, Htr, Hsf.
  replace (length (jsheap w) + 1 + 2) with (length (jsheap w) + 3) in * by lia.
  replace (length (jsheap w) + 1 + 1) with (length (jsheap w) + 2) in * by lia.
  exists w'. cbv zeta. rewrite HC. split; [exact HS|].
  unfold Width, Height, gets. rewrite Hcv. wsimpl.
  repeat (split; [reflexivity|]).
  split; [exact Hsf|]. split; [reflexivity|].
  split; [rewrite Hhp; unfold w1; wsimpl; now rewrite <- app_assoc|].
  split; [unfold allocs; rewrite Htr; unfold w1; wsimpl;
          rewrite count_snoc; cbn [is_alloc]; lia|].
  repeat (split; [reflexivity|]).
  split; [exact Hpe|exact Hfs].
Qed.

(** X11. [Create(width, height)], for positive sizes and a [Canvasp] whose
    [c.doc] and [c.body] are objects, makes one canvas element and sets the
    surface up on it: [Width()] and [Height()] answer the sizes given, the
    shadow frame, the image data and the one transfer buffer have
    [width * height * 4] bytes, all zero, and nothing that was on the heap,
    no request and nothing of the pacing is touched. *)
Theorem Create_sets_up_surface w d b od ob width0 height0 :
  doc (cv w) = jsRef d ->
  jsheap w !! d = Some od ->
  body (cv w) = jsRef b ->
  jsheap w !! b = Some ob ->
  (0 < width0)%Z -> (0 < height0)%Z ->
  exists w',
    let n := Z.to_nat (width0 * height0 * 4) in
    let h := length (jsheap w) in
    Create width0 height0 w = Returns tt w'
    /\ Width w' = Returns width0 w'
    /\ Height w' = Returns height0 w'
    /\ canvas (cv w') = jsRef h
    /\ surface (h + 3) (h + 2) (h + 1) n w'
    /\ image (cv w') = Some (replicate n Byte.x00)
    /\ jsheap w' = jsheap w ++ [JsCanvasElement; JsContext2D h;
                                JsImageData (replicate n Byte.x00);
                                JsUint8Array (replicate n Byte.x00)]
    /\ allocs w' = S (allocs w)
    /\ done (cv w') = done (cv w)
    /\ reqID (cv w') = reqID (cv w)
    /\ timeStep (cv w') = timeStep (cv w)
    /\ rafPending w' = rafPending w
    /\ funcs w' = funcs w.
Proof. exact (Create_world w d b od ob width0 height0). Qed.

Lemma Create_sets_up_surface_witness :
  doc (cv (run (NewCanvasp false) (boot 3 2))) = jsRef 1
  /\ exists w',
       Create 3 2 (run (NewCanvasp false) (boot 3 2)) = Returns tt w'
       /\ Width w' = Returns 3%Z w'
       /\ Height w' = Returns 2%Z w'
       /\ surface 6 5 4 24 w'.
Proof.
  split; [reflexivity|].
  destruct (Create_sets_up_surface (run (NewCanvasp false) (boot 3 2))
              1 2 JsOpaque JsOpaque 3 2 eq_refl eq_refl eq_refl eq_refl
              eq_refl eq_refl)
    as (w' & H). cbv zeta in H.
  destruct H as (HC & HW & HH & _ & Hsf & _).
  exists w'. split; [exact HC|]. split; [exact HW|]. split; [exact HH|exact Hsf].
Defined.

(** X12. [NewCanvasp(true)] on a page whose window is [iw] by [ih]
    pixels, both positive, returns a [Canvasp] with a canvas of that size
    set up ([Width()] is [iw], [Height()] is [ih], one transfer buffer of
    [iw * ih * 4] bytes), with [c.done] nil, [c.reqID] undefined, the
    interval 0, and nothing registered with the host. *)
Theorem NewCanvasp_true_sets_up_window_size iw ih :
  (0 < iw)%Z -> (0 < ih)%Z ->
  exists w',
    NewCanvasp true (boot iw ih) = Returns tt w'
    /\ Width w' = Returns iw w'
    /\ Height w' = Returns ih w'
    /\ canvas (cv w') = jsRef 3
    /\ surface 6 5 4 (Z.to_nat (iw * ih * 4)) w'
    /\ allocs w' = 1
    /\ done (cv w') = NilChan
    /\ reqID (cv w') = jsUndefined
    /\ timeStep (cv w') = 0%float
    /\ rafPending w' = []
    /\ funcs w' = [].
Proof.
  intros Hw Hh.
  set (w0 := set_cv (fun _ =>
    mkCanvasp NilChan jsGlobal jsDocument jsBody jsUndefined jsUndefined
              jsUndefined 0 0 None jsUndefined 0%float jsUndefined) (boot iw ih)).
  destruct (Create_world w0 1 2 JsOpaque JsOpaque iw ih
              eq_refl eq_refl eq_refl eq_refl Hw Hh) as (w' & H).
  cbv zeta in H.
  destruct H as (HC & HW & HH & Hca & Hsf & _ & _ & Hal & Hd & Hq & Ht & Hp & Hf).
  exists w'.
  split; [unfold NewCanvasp; munfold; wsimpl; exact HC|].
  split; [exact HW|]. split; [exact HH|]. split; [exact Hca|].
  split; [exact Hsf|]. split; [rewrite Hal; reflexivity|].
  split; [rewrite Hd; reflexivity|]. split; [rewrite Hq; reflexivity|].
  split; [rewrite Ht; reflexivity|]. split; [rewrite Hp; reflexivity|].
  rewrite Hf; reflexivity.
Qed.

Lemma NewCanvasp_true_sets_up_window_size_witness :
  exists w',
    NewCanvasp true (boot 4 3) = Returns tt w'
    /\ Width w' = Returns 4%Z w'
    /\ Height w' = Returns 3%Z w'
    /\ surface 6 5 4 48 w'.
Proof.
  destruct (NewCanvasp_true_sets_up_window_size 4 3 eq_refl eq_refl)
    as (w' & HN & HW & HH & _ & Hsf & _).
  exists w'. split; [exact HN|]. split; [exact HW|]. split; [exact HH|exact Hsf].
Defined.

(** X13. [Set] with a zero width or height panics in [createImageData],
    half way: [c.canvas], [c.width], [c.height] and [c.ctx] are already
    assigned, while the shadow frame, the image data and the transfer
    buffer are the earlier ones (none, on a fresh [Canvasp]) and no buffer
    has been allocated. So does [NewCanvasp(true)] in a window of zero
    width or height. *)
Theorem Set_with_zero_size_panics cnv width0 height0 w :
  jsheap w !! cnv = Some JsCanvasElement ->
  width0 = 0%Z \/ height0 = 0%Z ->
  exists w',
    Set' (jsRef cnv) width0 height0 w = Panics w'
    /\ canvas (cv w') = jsRef cnv
    /\ dims w' = (width0, height0)
    /\ ctx (cv w') = jsRef (length (jsheap w))
    /\ image (cv w') = image (cv w)
    /\ imgData (cv w') = imgData (cv w)
    /\ copybuff (cv w') = copybuff (cv w)
    /\ allocs w' = allocs w
    /\ (forall iw ih, iw = 0%Z \/ ih = 0%Z ->
        exists v, NewCanvasp true (boot iw ih) = Panics v
                  /\ image (cv v) = None).
Proof.
  intros Hc Hz.
  assert (Hb : ((width0 =? 0) || (height0 =? 0))%Z = true).
  { apply orb_true_iff. destruct Hz as [-> | ->]; [left|right]; reflexivity. }
  unfold Set', getContext2d, createImageData, js_object, js_alloc.
  munfold. wsimpl. rewrite Hc. wsimpl.
  rewrite lookup_app_r, Nat.sub_diag by lia. cbn [lookup list_lookup].
  rewrite Hb. eexists. split; [reflexivity|]. wsimpl.
  repeat (split; [reflexivity|]).
  intros iw ih Hz'.
  assert (Hb' : ((iw =? 0) || (ih =? 0))%Z = true).
  { apply orb_true_iff. destruct Hz' as [-> | ->]; [left|right]; reflexivity. }
  unfold NewCanvasp, Create, Set', getContext2d, createImageData, js_object,
    js_alloc, boot.
  munfold. wsimpl. cbn [lookup list_lookup app length]. rewrite Hb'.
  eexists. split; reflexivity.
Qed.

Lemma Set_with_zero_size_panics_witness :
  jsheap page !! 3 = Some JsCanvasElement
  /\ exists w', Set' (jsRef 3) 0 5 page = Panics w'
                /\ dims w' = (0%Z, 5%Z)
                /\ copybuff (cv w') = copybuff (cv page).
Proof.
  split; [reflexivity|].
  destruct (Set_with_zero_size_panics 3 0 5 page eq_refl (or_introl eq_refl))
    as (w' & HS & _ & Hd & _ & _ & _ & Hb & _).
  exists w'. split; [exact HS|]. split; [exact Hd|exact Hb].
Defined.

(** X14. The id of the first request is not kept: [Stop] called after
    [Start] on a [Canvasp] whose callback has not run yet (so that
    [c.reqID] is still undefined) cancels nothing. The request the
    goroutine made stays pending, and at the next refresh the callback runs
    as if [Stop] had not been called: it renders or copies exactly when
    the timestamp has reached [1000 / maxFPS], and re-arms. *)
Theorem Stop_before_first_callback_cancels_nothing a i x n w k o maxFPS r T :
  surface a i x n w ->
  settled w ->
  rafPending w = [] ->
  done_nil w ->
  window (cv w) = jsRef k ->
  jsheap w !! k = Some o ->
  reqID (cv w) = jsUndefined ->
  (0 <= rafCounter w)%Z ->
  exists w1 w2 w3 w4,
    Start maxFPS r w = Returns tt w1
    /\ schedule w1 = Returns tt w2
    /\ rafPending w2 = [((rafCounter w + 1)%Z, length (funcs w))]
    /\ reqID (cv w2) = jsUndefined
    /\ Stop w2 = Blocks w3
    /\ rafPending w3 = rafPending w2
    /\ refresh T w3 = Returns tt w4
    /\ (acted w3 w4 <-> ((1000 / maxFPS)%float <=? T)%float = true)
    /\ rafPending w4 = [((rafCounter w + 2)%Z, length (funcs w))].
Proof.
  intros Hsf Hs Hp Hn Hk Ho Hq Hc.
  destruct (Start_schedule w maxFPS r Hs)
    as (w1 & w2 & HS & Hsch & Hcv1 & Hcv2 & Hfs & Hp1 & Hp2 & Hc2 & Ht1 & Ht2
        & Hh & Hs2).
  unfold done_nil in Hn. rewrite Hn in Hfs. cbn [is_closed] in Hfs.
  rewrite Hp in Hp2. cbn [app] in Hp2.
  assert (Hn2 : done_nil w2)
    by (unfold done_nil; rewrite Hcv2, Hcv1; wsimpl; exact Hn).
  assert (Hk2 : window (cv w2) = jsRef k)
    by (rewrite Hcv2, Hcv1; wsimpl; exact Hk).
  assert (Ho2 : jsheap w2 !! k = Some o) by (rewrite Hh; exact Ho).
  assert (Hq2 : reqID (cv w2) = jsUndefined)
    by (rewrite Hcv2, Hcv1; wsimpl; exact Hq).
  pose proof (Stop_nil _ _ _ Hn2 Hk2 Ho2) as HSt.
  rewrite Hp2, Hq2 in HSt. cbn [List.filter handle_of fst] in HSt.
  assert (Hne : (rafCounter w + 1 =? 0)%Z = false) by lia.
  rewrite Hne in HSt. cbn [negb] in HSt.
  match type of HSt with _ = Blocks ?v => set (w3 := v) in * end.
  set (f := mkFrameFunc r 0%float 0 false) in *.
  assert (Hs3 : settled w3) by exact Hs2.
  assert (Hp3 : rafPending w3 = [((rafCounter w + 1)%Z, length (funcs w))])
    by reflexivity.
  assert (Hsf3 : surface a i x n w3).
  { eapply surface_ext; eauto; unfold w3; wsimpl; rewrite ?Hcv2, ?Hcv1; wsimpl;
      try reflexivity. apply (sf_image _ _ _ _ _ Hsf). }
  assert (Hf3 : funcs w3 !! length (funcs w) = Some f).
  { unfold w3. wsimpl. rewrite Hfs, lookup_app_r, Nat.sub_diag by lia.
    reflexivity. }
  destruct (refresh_tick _ _ _ _ _ _ _ f T Hs3 Hp3 Hsf3 Hf3 eq_refl)
    as (w4 & f' & Hr & _ & Hp4 & _ & _ & _ & _ & _ & _ & _ & _ & _ & _ & _
        & Ha & _).
  assert (Hg : gate w3 f T = ((1000 / maxFPS)%float <=? T)%float).
  { unfold gate, w3. wsimpl. rewrite Hcv2, Hcv1. wsimpl.
    now rewrite float_sub_zero. }
  exists w1, w2, w3, w4.
  split; [exact HS|]. split; [exact Hsch|]. split; [exact Hp2|].
  split; [exact Hq2|]. split; [exact HSt|].
  split; [rewrite Hp2; exact Hp3|]. split; [exact Hr|].
  split; [rewrite <- Hg; exact Ha|].
  rewrite Hp4. unfold w3. wsimpl. rewrite Hc2.
  replace (rafCounter w + 1 + 1)%Z with (rafCounter w + 2)%Z by lia.
  reflexivity.
Qed.

Lemma Stop_before_first_callback_cancels_nothing_witness :
  surface 6 5 4 4 page
  /\ reqID (cv page) = jsUndefined
  /\ exists w2 w3 w4,
       schedule (run (Start 60 None) page) = Returns tt w2
       /\ Stop w2 = Blocks w3
       /\ refresh 17 w3 = Returns tt w4
       /\ acted w3 w4.
Proof.
  split; [exact page_surface|]. split; [reflexivity|].
  destruct (Stop_before_first_callback_cancels_nothing 6 5 4 4 page 0 JsOpaque
              60%float None 17%float page_surface page_settled eq_refl eq_refl
              eq_refl eq_refl eq_refl)
    as (w1 & w2 & w3 & w4 & HS & Hsch & _ & _ & HSt & _ & Hr & Ha & _).
  { vm_compute; discriminate. }
  exists w2, w3, w4.
  split; [unfold run; rewrite HS; exact Hsch|].
  split; [exact HSt|]. split; [exact Hr|].
  apply Ha. reflexivity.
Defined.

(** X15. [Start] does not replace a running loop, it adds one: after a
    second [Start] the host has two callbacks to call at every refresh, the
    old one and the new one, both gated by the interval of the second
    call. Each re-arms itself, and [c.reqID] holds the id of the request
    made last, so that [Stop] cancels the new loop's request only and the
    old loop's stays pending. *)
Theorem second_Start_adds_a_second_loop a i x n w id fn f maxFPS r T k :
  surface a i x n w ->
  settled w ->
  rafPending w = [(id, fn)] ->
  funcs w !! fn = Some f ->
  released f = false ->
  done_nil w ->
  window (cv w) = jsRef k ->
  k < length (jsheap w) ->
  exists w1 w2 w3,
    let g1 := ((1000 / maxFPS)%float <=? T - lastTimestamp f)%float in
    let g2 := ((1000 / maxFPS)%float <=? T)%float in
    Start maxFPS r w = Returns tt w1
    /\ refresh T w1 = Returns tt w2
    /\ rafPending w2 = [((rafCounter w + 2)%Z, fn);
                        ((rafCounter w + 3)%Z, length (funcs w))]
    /\ rearms w2 = rearms w + 3
    /\ renders w2 = renders w
                    + (if g1 && bool_decide (is_Some (rf f)) then 1 else 0)
                    + (if g2 && bool_decide (is_Some r) then 1 else 0)
    /\ (rf f = None -> r = None ->
        copies w2 = copies w + (if g1 then 1 else 0) + (if g2 then 1 else 0))
    /\ reqID (cv w2) = jsNumber (rafCounter w + 3)
    /\ Stop w2 = Blocks w3
    /\ rafPending w3 = [((rafCounter w + 2)%Z, fn)].
Proof.
  intros Hsf Hs Hp Hf Hrel Hn Hk Hlt.
  destruct (Start_schedule w maxFPS r Hs)
    as (w1 & ws & HS & Hsch & Hcv1 & Hcv2 & Hfs & Hp1 & Hp2 & Hc2 & Ht1 & Ht2
        & Hh & Hs2).
  unfold done_nil in Hn. rewrite Hn in Hfs. cbn [is_closed] in Hfs.
  rewrite Hp in Hp2. cbn [app] in Hp2.
  set (f2 := mkFrameFunc r 0%float 0 false) in *.
  set (w0 := set_raf (rafCounter ws) [] ws).
  assert (Hfn : fn < length (funcs w)) by (eapply lookup_lt_Some; eauto).
  assert (Hsf0 : surface a i x n w0).
  { eapply surface_ext; eauto; unfold w0; wsimpl; rewrite ?Hcv2, ?Hcv1; wsimpl;
      try reflexivity. apply (sf_image _ _ _ _ _ Hsf). }
  assert (Hf0 : funcs w0 !! fn = Some f).
  { unfold w0. wsimpl. rewrite Hfs, lookup_app_l by lia. exact Hf. }
  destruct (renderFrame_spec _ _ _ _ _ fn f T Hsf0 Hf0 Hrel)
    as (wa & Hra & Hta & Hsfa).
  assert (Hfa : funcs wa !! length (funcs w) = Some f2).
  { rewrite (tk_others _ _ _ _ _ Hta) by lia. unfold w0. wsimpl.
    rewrite Hfs, lookup_app_r, Nat.sub_diag by lia. reflexivity. }
  destruct (renderFrame_spec _ _ _ _ _ (length (funcs w)) f2 T Hsfa Hfa eq_refl)
    as (wb & Hrb & Htb & Hsfb).
  assert (Hr : refresh T w1 = Returns tt wb).
  { unfold refresh. unfold bind at 1. rewrite Hsch. munfold. rewrite Hp2.
    cbn [forM_ snd]. fold w0. unfold bind, ret. now rewrite Hra, Hrb. }
  assert (Hts0 : timeStep (cv w0) = (1000 / maxFPS)%float)
    by (unfold w0; wsimpl; rewrite Hcv2, Hcv1; reflexivity).
  assert (Hg1 : gate w0 f T = ((1000 / maxFPS)%float <=? T - lastTimestamp f)%float)
    by (unfold gate; now rewrite Hts0).
  assert (Hg2 : gate wa f2 T = ((1000 / maxFPS)%float <=? T)%float).
  { unfold gate. rewrite (tk_timeStep _ _ _ _ _ Hta), Hts0. unfold f2. wsimpl.
    now rewrite float_sub_zero. }
  assert (Hc0 : rafCounter w0 = (rafCounter w + 1)%Z) by exact Hc2.
  assert (Hca : rafCounter wa = (rafCounter w + 2)%Z)
    by (rewrite (tk_counter _ _ _ _ _ Hta), Hc0; lia).
  assert (Hpb : rafPending wb = [((rafCounter w + 2)%Z, fn);
                                 ((rafCounter w + 3)%Z, length (funcs w))]).
  { rewrite (tk_pending _ _ _ _ _ Htb), (tk_pending _ _ _ _ _ Hta), Hca, Hc0.
    unfold w0. wsimpl. cbn [app].
    replace (rafCounter w + 1 + 1)%Z with (rafCounter w + 2)%Z by lia.
    replace (rafCounter w + 2 + 1)%Z with (rafCounter w + 3)%Z by lia.
    reflexivity. }
  assert (Hqb : reqID (cv wb) = jsNumber (rafCounter w + 3)).
  { rewrite (tk_reqID _ _ _ _ _ Htb), Hca. f_equal. lia. }
  assert (Hnb : done_nil wb).
  { unfold done_nil.
    rewrite (tk_done _ _ _ _ _ Htb), (tk_done _ _ _ _ _ Hta). unfold w0. wsimpl.
    rewrite Hcv2, Hcv1. wsimpl. exact Hn. }
  assert (Hkb : window (cv wb) = jsRef k).
  { rewrite (tk_window _ _ _ _ _ Htb), (tk_window _ _ _ _ _ Hta). unfold w0.
    wsimpl. rewrite Hcv2, Hcv1. wsimpl. exact Hk. }
  assert (Hlb : k < length (jsheap wb)).
  { rewrite (tk_heap _ _ _ _ _ Htb), (tk_heap _ _ _ _ _ Hta). unfold w0. wsimpl.
    rewrite Hh. exact Hlt. }
  destruct (lookup_lt_is_Some_2 (jsheap wb) k Hlb) as [o Ho].
  pose proof (Stop_nil _ _ _ Hnb Hkb Ho) as HSt.
  rewrite Hpb, Hqb in HSt. cbn [List.filter handle_of fst] in HSt.
  assert (Hne : (rafCounter w + 2 =? rafCounter w + 3)%Z = false) by lia.
  rewrite Hne, Z.eqb_refl in HSt. cbn [negb] in HSt.
  assert (Hre0 : rearms w0 = rearms w + 1).
  { unfold rearms, w0. wsimpl. rewrite Ht2, count_snoc. reflexivity. }
  assert (Hrn0 : renders w0 = renders w).
  { unfold renders, w0. wsimpl. rewrite Ht2, count_snoc. cbn [is_render]. lia. }
  assert (Hcp0 : copies w0 = copies w).
  { unfold copies, w0. wsimpl. rewrite Ht2, count_snoc. cbn [is_copy]. lia. }
  exists w1, wb. eexists. cbv zeta.
  split; [exact HS|]. split; [exact Hr|]. split; [exact Hpb|].
  split; [rewrite (tk_rearms _ _ _ _ _ Htb), (tk_rearms _ _ _ _ _ Hta), Hre0; lia|].
  split; [rewrite (tk_renders _ _ _ _ _ Htb), (tk_renders _ _ _ _ _ Hta), Hrn0,
            Hg1, Hg2; reflexivity|].
  split.
  { intros Hrf Hr2.
    rewrite (tk_copies _ _ _ _ _ Htb), (tk_copies _ _ _ _ _ Hta), Hcp0, Hg1, Hg2.
    unfold changed. rewrite Hrf. unfold f2. wsimpl. rewrite Hr2.
    now rewrite !andb_true_r. }
  split; [exact Hqb|]. split; [exact HSt|]. reflexivity.
Qed.

Lemma second_Start_adds_a_second_loop_witness :
  surface 6 5 4 4 running
  /\ rafPending running = [(2%Z, 0)]
  /\ exists w1 w2 w3,
       Start 30 None running = Returns tt w1
       /\ refresh 60 w1 = Returns tt w2
       /\ rafPending w2 = [(4%Z, 0); (5%Z, 1)]
       /\ copies w2 = copies running + 2
       /\ Stop w2 = Blocks w3
       /\ rafPending w3 = [(4%Z, 0)].
Proof.
  split; [exact running_surface|]. split; [reflexivity|].
  assert (Hs : settled running) by (vm_compute; repeat constructor).
  assert (Hlt : 0 < length (jsheap running)) by (vm_compute; lia).
  destruct (second_Start_adds_a_second_loop 6 5 4 4 running 2%Z 0
              (mkFrameFunc None 17%float 0 false) 30%float None 60%float 0
              running_surface Hs eq_refl eq_refl eq_refl eq_refl eq_refl Hlt)
    as (w1 & w2 & w3 & HS & Hr & Hp & _ & _ & Hc & _ & HSt & Hp3).
  exists w1, w2, w3.
  split; [exact HS|]. split; [exact Hr|]. split; [exact Hp|].
  split; [exact (Hc eq_refl eq_refl)|]. split; [exact HSt|exact Hp3].
Defined.

(** ** What [Start] makes is never given back *)

Lemma all_live_heap : forall o, preserves all_live (js_alloc o).
Proof. now intros o w Hw. Qed.

Lemma all_live_store : forall a o, preserves all_live (js_store a o).
Proof. now intros a o w Hw. Qed.

Lemma all_live_emit : forall e, preserves all_live (emit e).
Proof. now intros e w Hw. Qed.

Lemma all_live_raf : forall fn, preserves all_live (requestAnimationFrame fn).
Proof. now intros fn w Hw. Qed.

Lemma all_live_cancel : forall v, preserves all_live (cancelAnimationFrame v).
Proof. now intros v w Hw. Qed.

Create HintDb all_live.

#[local] Hint Resolve all_live_heap all_live_store all_live_emit all_live_raf
  all_live_cancel : all_live.

Lemma all_live_Set' cnv width0 height0 :
  preserves all_live (Set' cnv width0 height0).
Proof.
  unfold Set', getContext2d, createImageData, newUint8Array.
  pres_nil; auto with all_live.
Qed.

Lemma all_live_Create width0 height0 : preserves all_live (Create width0 height0).
Proof.
  unfold Create. pres_nil; auto using all_live_Set' with all_live.
Qed.

Lemma all_live_NewCanvasp create iw ih :
  all_live (run (NewCanvasp create) (boot iw ih)).
Proof.
  destruct create; [|repeat split; constructor].
  unfold run, NewCanvasp. unfold bind at 1. unfold modify at 1.
  cut (preserves all_live
         (iw <- gets innerWidth ;; ih <- gets innerHeight ;; Create iw ih)).
  { intros H. apply H. repeat split; constructor. }
  pres_nil; apply all_live_Create.
Qed.

Lemma all_live_funcs (g : FrameFunc -> FrameFunc) fn w :
  (forall f, released (g f) = released f) ->
  all_live w -> all_live (set_funcs (alter g fn (funcs w)) w).
Proof.
  intros Hg (Hd & Hf & Hgs). split; [exact Hd|]. split; [|exact Hgs].
  wsimpl. apply Forall_alter; [exact Hf|].
  intros f _ Hr. now rewrite Hg.
Qed.

Lemma all_live_imgCopy : preserves all_live imgCopy.
Proof.
  unfold imgCopy, CopyBytesToJS, imageData_set, putImageData.
  pres_nil; auto with all_live.
Qed.

Lemma all_live_call_rf fn r : preserves all_live (call_rf fn r).
Proof.
  intros w Hw. unfold call_rf.
  destruct (r _ _). cbn [world_of].
  apply (all_live_funcs (with_calls _) fn
           (set_cv (with_image (fmap _ (image (cv w)))) w)); [reflexivity|].
  exact Hw.
Qed.

#[local] Hint Resolve all_live_imgCopy all_live_call_rf : all_live.

Lemma all_live_renderFrame fn timestamp :
  preserves all_live (renderFrame fn timestamp).
Proof.
  unfold renderFrame.
  pres_nil; auto with all_live.
  all: apply preserves_modify; intros v Hv;
    now apply (all_live_funcs (with_lastTimestamp timestamp) fn v).
Qed.

Lemma all_live_goroutine_body g r : preserves all_live (goroutine_body g r).
Proof.
  intros w (Hd & Hf & Hgs).
  unfold goroutine_body, requestAnimationFrame, set_goroutine. munfold. wsimpl.
  rewrite Hd. wsimpl. split; [exact Hd|]. split.
  - apply Forall_app. split; [exact Hf|]. now repeat constructor.
  - apply Forall_insert; [exact Hgs|discriminate].
Qed.

Lemma all_live_schedule : preserves all_live schedule.
Proof.
  unfold schedule.
  apply preserves_bind; [apply preserves_gets|intros gs].
  apply preserves_forM_. intros g. unfold run_goroutine.
  apply preserves_bind; [apply preserves_gets|intros gs'].
  destruct (gs' !! g) as [[]|]; try apply preserves_ret.
  apply all_live_goroutine_body.
Qed.

Lemma all_live_refresh timestamp : preserves all_live (refresh timestamp).
Proof.
  unfold refresh.
  apply preserves_bind; [apply all_live_schedule|intros _].
  apply preserves_bind; [apply preserves_gets|intros ps].
  apply preserves_bind; [apply preserves_modify; now intros v Hv|intros _].
  apply preserves_forM_. intros p. apply all_live_renderFrame.
Qed.

Lemma all_live_Stop : preserves all_live Stop.
Proof.
  intros w Hw. unfold Stop, chan_send, bind, gets, js_object.
  destruct (window (cv w)); cbn; auto.
  destruct (jsheap w !! addr); cbn; auto.
  destruct Hw as (Hd & Hw). rewrite Hd. cbn. exact (conj Hd Hw).
Qed.

Lemma all_live_Start maxFPS r : preserves all_live (Start maxFPS r).
Proof.
  intros w (Hd & Hf & Hgs). split; [exact Hd|]. split; [exact Hf|].
  cbn. apply Forall_app. split; [exact Hgs|]. now repeat constructor.
Qed.

Lemma all_live_step o : preserves all_live (step o).
Proof.
  destruct o; cbn [step];
    auto using all_live_Start, all_live_Set', all_live_Create,
      all_live_refresh, all_live_renderFrame, all_live_Stop.
  now intros w Hw.
Qed.

(** X16. Nothing [Start] makes is ever given back. In every run from
    [NewCanvasp] on a fresh page, whatever calls of [SetFPS], [Start],
    [Set], [Create] and [Stop], refreshes and callbacks it is made of, no
    [js.Func] is released and no goroutine of [initFrameUpdate] ends: each
    [Start] leaves one of each for the life of the program. *)
Theorem nothing_started_is_ever_released create ops iw ih :
  Forall (fun f => released f = false)
         (funcs (exec ops (run (NewCanvasp create) (boot iw ih))))
  /\ Forall (fun s => s <> GoExited)
            (goroutines (exec ops (run (NewCanvasp create) (boot iw ih)))).
Proof.
  assert (H : all_live (exec ops (run (NewCanvasp create) (boot iw ih)))).
  { induction ops as [|o ops IH] using rev_ind;
      [apply all_live_NewCanvasp|].
    rewrite exec_snoc. apply (all_live_step o). exact IH. }
  destruct H as (_ & Hf & Hg). split; [exact Hf|exact Hg].
Qed.

(** ** [Set] on a running loop *)

(** A callback writes to the transfer buffer and the image data, and to
    nothing else on the JavaScript side. *)
Lemma renderFrame_heap a i x n w fn f timestamp w' :
  surface a i x n w ->
  funcs w !! fn = Some f ->
  released f = false ->
  renderFrame fn timestamp w = Returns tt w' ->
  forall j, j <> a -> j <> i -> jsheap w' !! j = jsheap w !! j.
Proof.
  intros Hs Hf Hrel.
  destruct (sf_image _ _ _ _ _ Hs) as [px Hpx].
  destruct (sf_buffer _ _ _ _ _ Hs) as [d [Hd Hn]].
  unfold renderFrame. munfold. wsimpl. rewrite Hf, Hrel.
  fold (gate w f timestamp).
  destruct (gate w f timestamp) eqn:G; [destruct (rf f) as [r|] eqn:Hr|].
  - unfold call_rf. rewrite Hf, Hpx. cbn [from_option id fmap option_fmap option_map].
    destruct (r (calls f) px) as [px' b] eqn:Er.
    destruct b.
    + erewrite imgCopy_spec; [| |wsimpl; reflexivity|wsimpl; eassumption].
      2:{ eapply surface_ext; [eassumption|wsimpl..]; eauto. }
      unfold requestAnimationFrame. wsimpl.
      intros [= <-] j Ha Hi. wsimpl.
      now rewrite !list_lookup_insert_ne by congruence.
    + unfold requestAnimationFrame. wsimpl. intros [= <-] j _ _. reflexivity.
  - erewrite imgCopy_spec; [|eassumption..].
    unfold requestAnimationFrame. wsimpl.
    intros [= <-] j Ha Hi. wsimpl.
    now rewrite !list_lookup_insert_ne by congruence.
  - unfold requestAnimationFrame. wsimpl. intros [= <-] j _ _. reflexivity.
Qed.

(** X17. [Set] called while a loop runs takes effect at the next callback.
    It replaces the shadow frame by a fresh all-zero one of the new size
    (what had been drawn is gone) and leaves the pending request alone; the
    next callback, gated as before, hands that fresh frame to the render
    step and copies it through the new transfer buffer. Nothing that was
    on the JavaScript side before, the old buffers included, is written
    again. *)
Theorem Set_takes_effect_at_next_callback w fn f cnv width0 height0 T :
  funcs w !! fn = Some f ->
  released f = false ->
  jsheap w !! cnv = Some JsCanvasElement ->
  (0 < width0)%Z -> (0 < height0)%Z ->
  exists w1 w2,
    let n' := Z.to_nat (width0 * height0 * 4) in
    let h := length (jsheap w) in
    let fresh := replicate n' Byte.x00 in
    Set' (jsRef cnv) width0 height0 w = Returns tt w1
    /\ image (cv w1) = Some fresh
    /\ rafPending w1 = rafPending w
    /\ renderFrame fn T w1 = Returns tt w2
    /\ (acted w1 w2 <-> gate w f T = true)
    /\ copies w2 = copies w1
                   + (if gate w f T
                         && match rf f with
                            | Some r => snd (r (calls f) fresh)
                            | None => true
                            end
                      then 1 else 0)
    /\ surface (h + 2) (h + 1) h n' w2
    /\ (forall j, j < h -> jsheap w2 !! j = jsheap w !! j).
Proof.
  intros Hf Hrel Hc Hw Hh.
  destruct (Set'_world _ _ _ _ Hc Hw Hh)
    as (w1 & HS & Hcv & Hhp & Htr & _ & Hfs & _ & Hpe).
  destruct (Set'_spec _ _ _ _ Hc Hw Hh) as (w1' & HS' & Hsf & _).
  assert (w1' = w1) by congruence. subst w1'.
  assert (Hf1 : funcs w1 !! fn = Some f) by (rewrite Hfs; exact Hf).
  destruct (renderFrame_spec _ _ _ _ _ fn f T Hsf Hf1 Hrel)
    as (w2 & Hr & Ht & Hsf2).
  assert (Hg : gate w1 f T = gate w f T) by (unfold gate; now rewrite Hcv).
  exists w1, w2. cbv zeta.
  split; [exact HS|]. split; [rewrite Hcv; reflexivity|].
  split; [exact Hpe|]. split; [exact Hr|].
  split; [rewrite <- Hg; exact (acted_iff_gate _ _ _ _ _ Ht)|].
  split; [rewrite (tk_copies _ _ _ _ _ Ht), Hg; unfold changed; rewrite Hcv;
          reflexivity|].
  split; [exact Hsf2|].
  intros j Hj.
  rewrite (renderFrame_heap _ _ _ _ _ _ _ _ _ Hsf Hf1 Hrel Hr) by lia.
  rewrite Hhp. now rewrite lookup_app_l by lia.
Qed.

Lemma Set_takes_effect_at_next_callback_witness :
  jsheap running !! 3 = Some JsCanvasElement
  /\ exists w1 w2,
       Set' (jsRef 3) 2 2 running = Returns tt w1
       /\ image (cv w1) = Some (replicate 16 Byte.x00)
       /\ renderFrame 0 40 w1 = Returns tt w2
       /\ copies w2 = copies w1 + 1
       /\ surface 9 8 7 16 w2.
Proof.
  split; [reflexivity|].
  destruct (Set_takes_effect_at_next_callback running 0
              (mkFrameFunc None 17%float 0 false) 3 2 2 40%float
              eq_refl eq_refl eq_refl eq_refl eq_refl)
    as (w1 & w2 & HS & Him & _ & Hr & _ & Hc & Hsf & _).
  exists w1, w2.
  split; [exact HS|]. split; [exact Him|]. split; [exact Hr|].
  split; [exact Hc|exact Hsf].
Defined.
